(** * Travel-Agent-AI: the structured-output pipeline of v2, v4 and v5

    A shallow embedding of the Python scripts [v2_structured_output.py],
    [v4_handoffs.py] and [v5_guardrails_and_context.py] (and of the
    preference update of [v6_streamlit_agent.py]), followed by the
    properties of the pipeline.

    Conventions of the embedding.
    - A Python [str] is a [string]: a sequence of characters with code
      points 0..255 (ASCII and Latin-1).  [str.strip], [str.lower] and the
      IGNORECASE flag of [re] are embedded with their behaviour on that
      range.
    - Text decoded from a JSON document is a list of Unicode code points
      ([text]), since an escape may denote any code point.
    - A Python [float] is kept as the exact rational its literal denotes
      (plus NaN and the infinities); rounding to binary64 is not modelled.
    - Effects (the chat-completion call, [print], the shared [UserContext]
      object) are threaded through a state-and-exception monad. *)

From stdpp Require Import base option list strings pretty gmap.
From Stdlib Require Import ZArith NArith QArith Ascii String Lia.

Local Open Scope string_scope.
Local Open Scope list_scope.

(** ** Python string operations *)

Module PyStr.

Definition ord (c : ascii) : N := N_of_ascii c.

Definition between (lo hi n : N) : bool := (N.leb lo n && N.leb n hi)%bool.

(** [str.isspace] of one character: TAB..CR, FS..US and SPACE, NEL
    (U+0085) and NBSP (U+00A0). *)
Definition isspace (c : ascii) : bool :=
  let n := ord c in
  (between 9 13 n || between 28 32 n || N.eqb n 133 || N.eqb n 160)%bool.

(** [str.lower] of one character: A..Z and the Latin-1 capitals
    U+00C0..U+00DE (but not the multiplication sign U+00D7). *)
Definition lower_char (c : ascii) : ascii :=
  let n := ord c in
  if (between 65 90 n || (between 192 222 n && negb (N.eqb n 215)))%bool
  then ascii_of_N (n + 32) else c.

Fixpoint lower (s : string) : string :=
  match s with
  | EmptyString => EmptyString
  | String c s' => String (lower_char c) (lower s')
  end.

(** [s.lstrip(chars)], the set of characters given as a predicate. *)
Fixpoint lstrip (p : ascii -> bool) (s : string) : string :=
  match s with
  | EmptyString => EmptyString
  | String c s' => if p c then lstrip p s' else s
  end.

(** [s.rstrip(chars)]. *)
Fixpoint rstrip (p : ascii -> bool) (s : string) : string :=
  match s with
  | EmptyString => EmptyString
  | String c s' =>
      match rstrip p s' with
      | EmptyString => if p c then EmptyString else String c EmptyString
      | r => String c r
      end
  end.

Definition strip_chars (p : ascii -> bool) (s : string) : string :=
  rstrip p (lstrip p s).

(** [s.strip()] *)
Definition strip (s : string) : string := strip_chars isspace s.

Definition is_backtick (c : ascii) : bool := Ascii.eqb c "`"%char.

(** [s.strip('`')] *)
Definition strip_backticks (s : string) : string := strip_chars is_backtick s.

(** [s.startswith(p)] *)
Fixpoint startswith (p s : string) : bool :=
  match p, s with
  | EmptyString, _ => true
  | String a p', String b s' => (Ascii.eqb a b && startswith p' s')%bool
  | String _ _, EmptyString => false
  end.

(** [p in s] *)
Fixpoint contains (p s : string) : bool :=
  (startswith p s ||
   match s with
   | EmptyString => false
   | String _ s' => contains p s'
   end)%bool.

Definition newline : ascii := "010"%char.

(** The cut of [s] at its first occurrence of the character [sep]. *)
Fixpoint cut (sep : ascii) (s : string) : option (string * string) :=
  match s with
  | EmptyString => None
  | String c s' =>
      if Ascii.eqb c sep then Some (EmptyString, s')
      else match cut sep s' with
           | Some (a, b) => Some (String c a, b)
           | None => None
           end
  end.

(** [s.split(sep, 1)] for a one-character separator: at most one cut. *)
Definition split1 (sep : ascii) (s : string) : list string :=
  match cut sep s with
  | Some (a, b) => [a; b]
  | None => [s]
  end.

(** [sep.join(l)] *)
Fixpoint join (sep : string) (l : list string) : string :=
  match l with
  | [] => EmptyString
  | [x] => x
  | x :: l' => x +:+ sep +:+ join sep l'
  end.

End PyStr.

(** ** The schema classes (pydantic models) and the user context *)

Definition text := list N.

Definition text_of_string (s : string) : text :=
  map N_of_ascii (list_ascii_of_string s).

(** A Python float: the exact value of its literal, NaN or an infinity. *)
Inductive pyfloat :=
| Finite (q : Q)
| NaN
| Infinity (negative : bool).

Module Flight.
Record FlightRecommendation := {
  airline : text;
  departure_time : text;
  arrival_time : text;
  price : pyfloat;
  direct_flight : bool;
  recommendation_reason : text
}.
End Flight.

Module Hotel.
Record HotelRecommendation := {
  name : text;
  location : text;
  price_per_night : pyfloat;
  amenities : list text;
  recommendation_reason : text
}.
End Hotel.

Module Plan.
Record TravelPlan := {
  destination : text;
  duration_days : Z;
  budget : pyfloat;
  activities : list text;
  notes : text
}.
End Plan.

Module Budget.
Record BudgetAnalysis := {
  is_realistic : bool;
  reasoning : text;
  suggested_budget : option pyfloat
}.
End Budget.

(** The four model classes, as values ([model_type] in the source). *)
Inductive SchemaKind := KFlight | KHotel | KPlan | KBudget.

Definition instance (k : SchemaKind) : Type :=
  match k with
  | KFlight => Flight.FlightRecommendation
  | KHotel => Hotel.HotelRecommendation
  | KPlan => Plan.TravelPlan
  | KBudget => Budget.BudgetAnalysis
  end.

Record UserContext := {
  user_id : string;
  preferred_airlines : list string;
  hotel_amenities : list string;
  budget_level : string;
  session_start : string
}.

(** ** Intent routing (v4 lines 79-87, v5 lines 118-126) *)

(** The [if]/[elif]/[else] chain that both [handle_query] functions start
    their main request with; it binds [task_type] and the model class. *)
Definition route (query : string) : string * SchemaKind :=
  if PyStr.contains "flight" (PyStr.lower query) then ("flight", KFlight)
  else if PyStr.contains "hotel" (PyStr.lower query) then ("hotel", KHotel)
  else ("plan", KPlan).

(** ** Exceptions, effects and the external collaborators *)

(** The exceptions the pipeline meets, all of them subclasses of
    [Exception].  A pydantic [ValidationError] carries the title of the
    model class and its line errors (location and error type). *)
Inductive exn :=
| ValidationError (title : string) (errors : list (list string * string))
| IndexError
| AttributeError
| KeyError (key : string)
| UnboundLocalError (var : string)
| APIError (message : string).

(** [isinstance(e, ValidationError)] *)
Definition is_ValidationError (e : exn) : bool :=
  match e with
  | ValidationError _ _ => true
  | _ => false
  end.

(** One call of [client.chat.completions.create]. *)
Record Request := {
  req_model : string;
  req_messages : list (string * string);
  req_temperature : Q
}.

(** What the call gives back: it raises, or it returns a response, of
    which the pipeline reads [choices[i].message.content] (a [str] or
    [None]). *)
Inductive Reply :=
| Raises (e : exn)
| Response (choices : list (option string)).

(** Values stored in the result dictionaries. *)
Inductive pyval :=
| PNone
| PStr (t : text)
| PFloat (x : pyfloat).

(** What [handle_query] of v5 returns: a [dict] or a model instance. *)
Inductive result :=
| Dict (d : gmap string pyval)
| Object (k : SchemaKind) (r : instance k).

(** The world outside the function: the [UserContext] object the caller
    shares with it by reference, the chat-completion calls issued so far
    and what was printed. *)
Record World := {
  user_context : UserContext;
  requests : list Request;
  stdout : list string
}.

(** The collaborators of the scripts that are not part of the repository:
    the configured model name, the completion service, pydantic's schema
    dump and validation, and the builtin renderings of a list and of an
    exception.  The reply of the service may depend on the calls made
    before. *)
Record Env := {
  model : string;
  create : list Request -> Request -> Reply;
  model_json_schema : SchemaKind -> string;
  model_validate_json : forall k : SchemaKind, string -> exn + instance k;
  repr_list : list string -> string;
  str_exn : exn -> string
}.

Inductive outcome (A : Type) :=
| Return (a : A)
| Raise (e : exn).
Arguments Return {A} a.
Arguments Raise {A} e.

Definition M (A : Type) : Type := World -> outcome A * World.

Definition ret {A} (a : A) : M A := fun w => (Return a, w).

Definition raise {A} (e : exn) : M A := fun w => (Raise e, w).

Definition bind {A B} (m : M A) (f : A -> M B) : M B :=
  fun w =>
    match m w with
    | (Return a, w') => f a w'
    | (Raise e, w') => (Raise e, w')
    end.

Declare Scope py_scope.
Delimit Scope py_scope with py.
Notation "x <- m ;; k" := (bind m (fun x => k))
  (at level 100, m at next level, right associativity) : py_scope.
Notation "m ;;; k" := (bind m (fun _ => k))
  (at level 100, right associativity) : py_scope.

(** [try: body  except ...: handler(e)]; the handler decides by the class
    of [e] whether it applies and re-raises otherwise. *)
Definition try_except {A} (body : M A) (handler : exn -> M A) : M A :=
  fun w =>
    match body w with
    | (Raise e, w') => handler e w'
    | r => r
    end.

(** A [try] block that first binds a local variable ([first]) and then
    goes on with it ([rest]); the handler sees the variable only if the
    exception came after the binding. *)
Definition try_bind_except {A B} (first : M A) (rest : A -> M B)
    (handler : option A -> exn -> M B) : M B :=
  fun w =>
    match first w with
    | (Raise e, w1) => handler None e w1
    | (Return a, w1) =>
        match rest a w1 with
        | (Raise e, w2) => handler (Some a) e w2
        | r => r
        end
    end.

Definition of_sum {A} (r : exn + A) : M A :=
  match r with
  | inl e => raise e
  | inr a => ret a
  end.

Definition get_context : M UserContext :=
  fun w => (Return (user_context w), w).

Definition record_request (rq : Request) (w : World) : World :=
  {| user_context := user_context w;
     requests := requests w ++ [rq];
     stdout := stdout w |}.

Definition write_stdout (s : string) (w : World) : World :=
  {| user_context := user_context w;
     requests := requests w;
     stdout := stdout w ++ [s] |}.

(** [print] of some arguments: they are joined by a space, and a newline
    follows. *)
Definition print (args : list string) : M unit :=
  fun w =>
    (Return tt, write_stdout (PyStr.join " " args +:+ String PyStr.newline "") w).

(** [await client.chat.completions.create(...)]: the call is recorded and
    the service answers. *)
Definition completions_create (E : Env) (rq : Request) : M (list (option string)) :=
  fun w =>
    match create E (requests w) rq with
    | Raises e => (Raise e, record_request rq w)
    | Response choices => (Return choices, record_request rq w)
    end.

(** [l[i]] *)
Definition getitem {A} (l : list A) (i : nat) : M A :=
  match l !! i with
  | Some a => ret a
  | None => raise IndexError
  end.

(** [d[key]] *)
Definition getitem_dict {A} (d : gmap string A) (key : string) : M A :=
  match d !! key with
  | Some a => ret a
  | None => raise (KeyError key)
  end.

(** [content.strip()], where [content] may be [None]. *)
Definition content_strip (content : option string) : M string :=
  match content with
  | Some s => ret (PyStr.strip s)
  | None => raise AttributeError
  end.

Definition lines (l : list string) : string :=
  PyStr.join (String PyStr.newline "") l.

Definition user_message (prompt : string) : list (string * string) :=
  [("user", prompt)].

(** ** v2: the regular expression that removes the code fence *)

Module Re.

(** A case-insensitive prefix test, as the IGNORECASE flag asks for the
    literal part of the pattern. *)
Fixpoint startswith_ignorecase (p s : string) : bool :=
  match p, s with
  | EmptyString, _ => true
  | String a p', String b s' =>
      (Ascii.eqb (PyStr.lower_char a) (PyStr.lower_char b)
       && startswith_ignorecase p' s')%bool
  | String _ _, EmptyString => false
  end.

Fixpoint drop (n : nat) (s : string) : string :=
  match n, s with
  | O, _ => s
  | S n', String _ s' => drop n' s'
  | S _, EmptyString => EmptyString
  end.

(** [$] without MULTILINE: the end of the string, or the place just
    before a newline that ends the string. *)
Definition at_dollar (s : string) : bool :=
  match s with
  | EmptyString => true
  | String c EmptyString => Ascii.eqb c PyStr.newline
  | _ => false
  end.

(** The first alternative, [^```json\n?], tried at position 0 only:
    what follows the match, if it matches. *)
Definition match_open (s : string) : option string :=
  if startswith_ignorecase "```json" s then
    match drop 7 s with
    | String c r => if Ascii.eqb c PyStr.newline then Some r else Some (String c r)
    | EmptyString => Some EmptyString
    end
  else None.

(** The second alternative, [```$]: what follows the match. *)
Definition match_close (s : string) : option string :=
  if (PyStr.startswith "```" s && at_dollar (drop 3 s))%bool
  then Some (drop 3 s) else None.

(** The scan of [re.sub] from a position where only the second
    alternative can match.  After a match the rest is empty or one
    newline, and the scan of it finds nothing more. *)
Fixpoint sub_from (s : string) : string :=
  match match_close s with
  | Some r => r
  | None =>
      match s with
      | EmptyString => EmptyString
      | String c s' => String c (sub_from s')
      end
  end.

(** [re.sub(r"^```json\n?|```$", "", s, flags=re.IGNORECASE)] *)
Definition sub (s : string) : string :=
  match match_open s with
  | Some r => sub_from r
  | None => sub_from s
  end.

End Re.

Module V2.

(** Lines 61 and 64 of [main]: from the message content to [cleaned]. *)
Definition cleaned (content : string) : string :=
  let raw := PyStr.strip content in
  PyStr.strip (Re.sub (PyStr.strip raw)).

End V2.

(** ** v4: routing to one of three schemas *)

Module V4.
Section Pipeline.

Variable E : Env.

Definition build_prompt (task_type query : string) : string :=
  if String.eqb task_type "flight" then
    lines [""; "You are a flight booking assistant.";
           "Use the following query to return a flight recommendation in this JSON format:";
           model_json_schema E KFlight; ""; "Only return valid JSON.";
           "User: " +:+ query; ""]
  else if String.eqb task_type "hotel" then
    lines [""; "You are a hotel booking assistant.";
           "Use the following query to return a hotel recommendation in this JSON format:";
           model_json_schema E KHotel; ""; "Only return valid JSON.";
           "User: " +:+ query; ""]
  else
    lines [""; "You are a travel planner.";
           "Use the following query to return a travel plan in this JSON format:";
           model_json_schema E KPlan; ""; "Only return valid JSON.";
           "User: " +:+ query; ""].

(** Returns the parsed instance, or [None] after a validation error. *)
Definition handle_query (query : string) : M (option result) :=
  (let '(task_type, output_model) := route query in
   let prompt := build_prompt task_type query in
   choices <- completions_create E
     {| req_model := model E; req_messages := user_message prompt;
        req_temperature := 7 # 10 |};;
   content <- getitem choices 0;;
   raw <- content_strip content;;
   try_except
     (parsed <- of_sum (model_validate_json E output_model raw);;
      ret (Some (Object output_model parsed)))
     (fun e =>
        if is_ValidationError e then
          print ["
❌ Error parsing structured output:"];;;
          print [str_exn E e];;;
          print ["
Raw Output:
"; raw];;;
          ret None
        else raise e))%py.

End Pipeline.
End V4.

(** ** v5: the budget guardrail and the user context *)

Module V5.
Section Pipeline.

Variable E : Env.

Definition build_prompt (task_type query : string) (context : UserContext)
    : M string :=
  (let schemas : gmap string string :=
     <["plan" := model_json_schema E KPlan]>
       (<["hotel" := model_json_schema E KHotel]>
          (<["flight" := model_json_schema E KFlight]> ∅)) in
   let context_str :=
     lines ["Preferred Airlines: " +:+ repr_list E (preferred_airlines context);
            "Hotel Amenities: " +:+ repr_list E (hotel_amenities context);
            "Budget Level: " +:+ budget_level context;
            "Session Start: " +:+ session_start context] in
   schema <- getitem_dict schemas task_type;;
   ret (lines [""; "You are a helpful travel assistant."; "User Preferences:";
               context_str; "";
               "Respond ONLY with a JSON object that matches this schema:";
               schema; ""; "User Query: " +:+ query; ""]))%py.

Definition build_budget_check_prompt (query : string) : string :=
  let schema := model_json_schema E KBudget in
  lines [""; "You are a budget check assistant.";
         "Evaluate if this travel budget is realistic.";
         "Respond ONLY with JSON that matches:";
         schema; ""; "Query: " +:+ query; ""].

(** Lines 104-106, and again lines 135-137: from the message content
    (a [str] or [None]) to the text handed to the validator.  [None] has
    no [strip], and [split] gives a list of one element when the text
    has no newline. *)
Definition strip_fence (content : option string) : exn + string :=
  match content with
  | None => inl AttributeError
  | Some c =>
      let s := PyStr.strip (PyStr.strip_backticks (PyStr.strip c)) in
      if PyStr.startswith "json" s then
        match PyStr.split1 PyStr.newline s !! 1%nat with
        | Some s' => inr s'
        | None => inl IndexError
        end
      else inr s
  end.

Definition guardrail_dict (budget_info : Budget.BudgetAnalysis)
    : gmap string pyval :=
  <["suggested_budget" :=
      match Budget.suggested_budget budget_info with
      | Some x => PFloat x
      | None => PNone
      end]>
    (<["reasoning" := PStr (Budget.reasoning budget_info)]>
       (<["type" := PStr (text_of_string "guardrail")]> ∅)).

(** The arguments of the two calls of [create] (lines 99-103 and
    130-134). *)
Definition guardrail_request (query : string) : Request :=
  {| req_model := model E;
     req_messages := user_message (build_budget_check_prompt query);
     req_temperature := 2 # 10 |}.

Definition main_request_of (main_prompt : string) : Request :=
  {| req_model := model E;
     req_messages := user_message main_prompt;
     req_temperature := 7 # 10 |}.

(** The body of the first [try] (lines 98-113); [Some r] when it
    executes [return r], [None] when it falls through. *)
Definition guardrail_check (query : string) : M (option result) :=
  (choices <- completions_create E (guardrail_request query);;
   choice <- getitem choices 0;;
   guardrail_json <- of_sum (strip_fence choice);;
   budget_info <- of_sum (model_validate_json E KBudget guardrail_json);;
   if negb (Budget.is_realistic budget_info)
   then ret (Some (Dict (guardrail_dict budget_info)))
   else ret None)%py.

(** [except Exception as e] of the guardrail (lines 114-115). *)
Definition guardrail_failed (e : exn) : M (option result) :=
  (print ["Budget check failed:"; str_exn E e];;; ret None)%py.

(** Lines 97-115, the whole first [try] statement. *)
Definition guardrail_stage (query : string) : M (option result) :=
  try_except (guardrail_check query) guardrail_failed.

(** Lines 129-137: the statements of the second [try] that bind
    [output_raw]. *)
Definition fetch_output (task_type query : string) : M string :=
  (context <- get_context;;
   main_prompt <- build_prompt task_type query context;;
   choices <- completions_create E (main_request_of main_prompt);;
   choice <- getitem choices 0;;
   of_sum (strip_fence choice))%py.

Definition error_dict (e : exn) : gmap string pyval :=
  <["error" := PStr (text_of_string (str_exn E e))]>
    (<["type" := PStr (text_of_string "error")]> ∅).

(** [except ValidationError as e] of the main request (lines 139-143).
    Any other exception is not caught.  The handler reads the local
    variable [output_raw], which is unbound when the exception came
    before its assignment. *)
Definition validation_failed (output_raw : option string) (e : exn)
    : M result :=
  (if is_ValidationError e then
     print ["
🤖 Failed to parse structured output."];;;
     print [str_exn E e];;;
     raw <- match output_raw with
            | Some s => ret s
            | None => raise (UnboundLocalError "output_raw")
            end;;
     print ["
Raw Output:
"; raw];;;
     ret (Dict (error_dict e))
   else raise e)%py.

(** Lines 117-143: intent routing and the main request. *)
Definition main_request (query : string) : M result :=
  (let '(task_type, model_type) := route query in
   try_bind_except (fetch_output task_type query)
     (fun output_raw =>
        r <- of_sum (model_validate_json E model_type output_raw);;
        ret (Object model_type r))
     validation_failed)%py.

(** [handle_query(query, context)]: the argument [context] is the
    reference to the [UserContext] object of the world. *)
Definition handle_query (query : string) : M result :=
  (blocked <- guardrail_stage query;;
   match blocked with
   | Some r => ret r
   | None => main_request query
   end)%py.

End Pipeline.
End V5.

(** ** v6: the explicit preference update (lines 176-179) *)

Module V6.

Definition save_preferences (airlines amenities : list string)
    (level : string) : M unit :=
  fun w =>
    (Return tt,
     {| user_context :=
          {| user_id := user_id (user_context w);
             preferred_airlines := airlines;
             hotel_amenities := amenities;
             budget_level := level;
             session_start := session_start (user_context w) |};
        requests := requests w;
        stdout := stdout w |}).

End V6.

(** ** JSON documents, as pydantic's [model_validate_json] reads them

    The input is scanned character by character into tokens by a small
    state machine, and the tokens are assembled by a stack automaton.
    Both are folds of a step function, so both are total. *)

Module Json.

Inductive number :=
| NInt (z : Z)
| NFloat (x : pyfloat).

Inductive token :=
| TLBrace | TRBrace | TLBracket | TRBracket | TColon | TComma
| TString (t : text)
| TNumber (n : number)
| TTrue | TFalse | TNull.

#[warnings="-register-all"]
Inductive value :=
| VNull
| VBool (b : bool)
| VNumber (n : number)
| VString (t : text)
| VArray (items : list value)
| VObject (members : list (text * value)).

(** *** Characters *)

Definition dquote : ascii := "034"%char.

Definition is_ws (c : ascii) : bool :=
  let n := PyStr.ord c in
  (N.eqb n 32 || N.eqb n 9 || N.eqb n 10 || N.eqb n 13)%bool.

Definition is_digit (c : ascii) : bool := PyStr.between 48 57 (PyStr.ord c).

Definition is_letter (c : ascii) : bool :=
  (PyStr.between 65 90 (PyStr.ord c) || PyStr.between 97 122 (PyStr.ord c))%bool.

(** The characters of numbers and of the literal names. *)
Definition is_word (c : ascii) : bool :=
  (is_digit c || is_letter c || Ascii.eqb c "+" || Ascii.eqb c "-"
   || Ascii.eqb c ".")%bool.

Definition hex_value (c : ascii) : option N :=
  let n := PyStr.ord c in
  if PyStr.between 48 57 n then Some (n - 48)%N
  else if PyStr.between 65 70 n then Some (n - 55)%N
  else if PyStr.between 97 102 n then Some (n - 87)%N
  else None.

(** *** Numbers

    An optional minus sign; an integer part, which is 0 or starts with a
    digit from 1 to 9; an optional fraction, a dot and at least one
    digit; an optional exponent, e or E, an optional sign and at least
    one digit. *)

Fixpoint span_digits (l : list ascii) : list ascii * list ascii :=
  match l with
  | c :: l' =>
      if is_digit c
      then let '(ds, r) := span_digits l' in (c :: ds, r)
      else ([], l)
  | [] => ([], [])
  end.

Definition digits_value (ds : list ascii) : Z :=
  fold_left (fun acc c => (acc * 10 + Z.of_N (PyStr.ord c - 48))%Z) ds 0%Z.

(** The integer part: one or more digits, no leading zero. *)
Definition int_part (l : list ascii) : option (list ascii * list ascii) :=
  match span_digits l with
  | ([], _) => None
  | (d :: ds, r) =>
      if (Ascii.eqb d "0" && negb (Nat.eqb (List.length ds) 0))%bool
      then None else Some (d :: ds, r)
  end.

(** The optional fraction: its digits ([None] when absent). *)
Definition frac_part (l : list ascii)
    : option (option (list ascii) * list ascii) :=
  match l with
  | c :: r =>
      if Ascii.eqb c "." then
        match span_digits r with
        | ([], _) => None
        | (ds, r') => Some (Some ds, r')
        end
      else Some (None, l)
  | [] => Some (None, [])
  end.

(** The optional exponent: its value ([None] when absent). *)
Definition exp_part (l : list ascii) : option (option Z * list ascii) :=
  match l with
  | c :: r =>
      if (Ascii.eqb c "e" || Ascii.eqb c "E")%bool then
        let '(neg, r1) :=
          match r with
          | s :: r1 =>
              if Ascii.eqb s "-" then (true, r1)
              else if Ascii.eqb s "+" then (false, r1)
              else (false, r)
          | [] => (false, [])
          end in
        match span_digits r1 with
        | ([], _) => None
        | (ds, r') =>
            Some (Some (if neg then - digits_value ds else digits_value ds)%Z, r')
        end
      else Some (None, l)
  | [] => Some (None, [])
  end.

(** [m * 10^e], reduced. *)
Definition decimal (m e : Z) : Q :=
  Qred (if (0 <=? e)%Z then inject_Z (m * 10 ^ e)
        else Qmake m (Z.to_pos (10 ^ (- e)))).

Definition parse_number (w : list ascii) : option number :=
  let '(neg, w1) :=
    match w with
    | c :: r => if Ascii.eqb c "-" then (true, r) else (false, w)
    | [] => (false, [])
    end in
  match int_part w1 with
  | None => None
  | Some (ip, w2) =>
      match frac_part w2 with
      | None => None
      | Some (fp, w3) =>
          match exp_part w3 with
          | Some (ep, []) =>
              let sign (z : Z) := if neg then (- z)%Z else z in
              match fp, ep with
              | None, None => Some (NInt (sign (digits_value ip)))
              | _, _ =>
                  let fd := default [] fp in
                  let m := digits_value (ip ++ fd) in
                  let e := (default 0 ep - Z.of_nat (List.length fd))%Z in
                  Some (NFloat (Finite (decimal (sign m) e)))
              end
          | _ => None
          end
      end
  end.

(** A maximal run of word characters is a literal name or a number. *)
Definition classify (w : list ascii) : option token :=
  let s := string_of_list_ascii w in
  if String.eqb s "true" then Some TTrue
  else if String.eqb s "false" then Some TFalse
  else if String.eqb s "null" then Some TNull
  else if String.eqb s "NaN" then Some (TNumber (NFloat NaN))
  else if String.eqb s "Infinity" then Some (TNumber (NFloat (Infinity false)))
  else if String.eqb s "-Infinity" then Some (TNumber (NFloat (Infinity true)))
  else TNumber <$> parse_number w.

(** *** The scanner *)

(** Where the scanner is inside a string: in plain text, after a
    backslash, inside the four hex digits of [\u] (with the high
    surrogate that came before, if any), or between a high surrogate
    and the [\u] of the low one. *)
Inductive strmode :=
| SPlain
| SEscape
| SHex (seen : nat) (acc : N) (high : option N)
| SLowBackslash (high : N)
| SLowU (high : N).

Inductive mode :=
| Idle
| Word (rev_chars : list ascii)
| Str (rev_text : text) (m : strmode)
| Failed.

Definition lexer : Type := list token * mode.

(** The character after a backslash. *)
Definition escape (c : ascii) : option N :=
  if Ascii.eqb c dquote then Some 34%N
  else if Ascii.eqb c "\" then Some 92%N
  else if Ascii.eqb c "/" then Some 47%N
  else if Ascii.eqb c "b" then Some 8%N
  else if Ascii.eqb c "f" then Some 12%N
  else if Ascii.eqb c "n" then Some 10%N
  else if Ascii.eqb c "r" then Some 13%N
  else if Ascii.eqb c "t" then Some 9%N
  else None.

(** A complete [\uXXXX] unit [u]. *)
Definition unit_done (out : list token) (t : text) (u : N) (high : option N)
    : lexer :=
  match high with
  | None =>
      if PyStr.between 55296 56319 u then (out, Str t (SLowBackslash u))
      else if PyStr.between 56320 57343 u then (out, Failed)
      else (out, Str (u :: t) SPlain)
  | Some h =>
      if PyStr.between 56320 57343 u
      then (out, Str ((65536 + (h - 55296) * 1024 + (u - 56320))%N :: t) SPlain)
      else (out, Failed)
  end.

Definition str_step (out : list token) (t : text) (m : strmode) (c : ascii)
    : lexer :=
  match m with
  | SPlain =>
      if Ascii.eqb c dquote then (TString (rev t) :: out, Idle)
      else if Ascii.eqb c "\" then (out, Str t SEscape)
      else if N.ltb (PyStr.ord c) 32 then (out, Failed)
      else (out, Str (PyStr.ord c :: t) SPlain)
  | SEscape =>
      if Ascii.eqb c "u" then (out, Str t (SHex 0 0 None))
      else match escape c with
           | Some n => (out, Str (n :: t) SPlain)
           | None => (out, Failed)
           end
  | SHex seen acc high =>
      match hex_value c with
      | Some d =>
          let acc' := (acc * 16 + d)%N in
          if Nat.eqb seen 3 then unit_done out t acc' high
          else (out, Str t (SHex (S seen) acc' high))
      | None => (out, Failed)
      end
  | SLowBackslash h =>
      if Ascii.eqb c "\" then (out, Str t (SLowU h)) else (out, Failed)
  | SLowU h =>
      if Ascii.eqb c "u" then (out, Str t (SHex 0 0 (Some h))) else (out, Failed)
  end.

(** A character met between tokens. *)
Definition start (out : list token) (c : ascii) : lexer :=
  if is_ws c then (out, Idle)
  else if Ascii.eqb c "{" then (TLBrace :: out, Idle)
  else if Ascii.eqb c "}" then (TRBrace :: out, Idle)
  else if Ascii.eqb c "[" then (TLBracket :: out, Idle)
  else if Ascii.eqb c "]" then (TRBracket :: out, Idle)
  else if Ascii.eqb c ":" then (TColon :: out, Idle)
  else if Ascii.eqb c "," then (TComma :: out, Idle)
  else if Ascii.eqb c dquote then (out, Str [] SPlain)
  else if is_word c then (out, Word [c])
  else (out, Failed).

Definition step (st : lexer) (c : ascii) : lexer :=
  let '(out, m) := st in
  match m with
  | Failed => st
  | Idle => start out c
  | Word w =>
      if is_word c then (out, Word (c :: w))
      else match classify (rev w) with
           | Some t => start (t :: out) c
           | None => (out, Failed)
           end
  | Str t sm => str_step out t sm c
  end.

Fixpoint run (st : lexer) (s : string) : lexer :=
  match s with
  | EmptyString => st
  | String c s' => run (step st c) s'
  end.

Definition finish (st : lexer) : option (list token) :=
  match st with
  | (out, Idle) => Some (rev out)
  | (out, Word w) =>
      match classify (rev w) with
      | Some t => Some (rev (t :: out))
      | None => None
      end
  | _ => None
  end.

Definition lex (s : string) : option (list token) := finish (run ([], Idle) s).

(** *** The parser: a stack automaton over the tokens *)

(** An open container: an array with the items read so far, or an
    object with its members and the key whose value is being read. *)
Inductive frame :=
| FArray (rev_items : list value)
| FObject (rev_members : list (text * value)) (key : option text).

(** What may come next. *)
Inductive expect :=
| XValue
| XValueOrClose
| XKey
| XKeyOrClose
| XColon
| XAfter
| XDone (v : value)
| XError.

Definition parser : Type := list frame * expect.

(** A value is complete: it is the document, an item or a member. *)
Definition complete (v : value) (stack : list frame) : parser :=
  match stack with
  | [] => ([], XDone v)
  | FArray items :: st => (FArray (v :: items) :: st, XAfter)
  | FObject members (Some k) :: st => (FObject ((k, v) :: members) None :: st, XAfter)
  | FObject _ None :: _ => (stack, XError)
  end.

Definition open_value (stack : list frame) (t : token) : parser :=
  match t with
  | TLBracket => (FArray [] :: stack, XValueOrClose)
  | TLBrace => (FObject [] None :: stack, XKeyOrClose)
  | TString s => complete (VString s) stack
  | TNumber n => complete (VNumber n) stack
  | TTrue => complete (VBool true) stack
  | TFalse => complete (VBool false) stack
  | TNull => complete VNull stack
  | _ => (stack, XError)
  end.

Definition close_array (stack : list frame) : parser :=
  match stack with
  | FArray items :: st => complete (VArray (rev items)) st
  | _ => (stack, XError)
  end.

Definition close_object (stack : list frame) : parser :=
  match stack with
  | FObject members None :: st => complete (VObject (rev members)) st
  | _ => (stack, XError)
  end.

Definition take_key (stack : list frame) (t : token) : parser :=
  match t, stack with
  | TString k, FObject members None :: st => (FObject members (Some k) :: st, XColon)
  | _, _ => (stack, XError)
  end.

Definition pstep (p : parser) (t : token) : parser :=
  let '(stack, x) := p in
  match x with
  | XValue => open_value stack t
  | XValueOrClose =>
      match t with
      | TRBracket => close_array stack
      | _ => open_value stack t
      end
  | XKey => take_key stack t
  | XKeyOrClose =>
      match t with
      | TRBrace => close_object stack
      | _ => take_key stack t
      end
  | XColon =>
      match t with
      | TColon => (stack, XValue)
      | _ => (stack, XError)
      end
  | XAfter =>
      match t, stack with
      | TComma, FArray _ :: _ => (stack, XValue)
      | TComma, FObject _ _ :: _ => (stack, XKey)
      | TRBracket, _ => close_array stack
      | TRBrace, _ => close_object stack
      | _, _ => (stack, XError)
      end
  | XDone _ => (stack, XError)
  | XError => p
  end.

Definition parse_tokens (ts : list token) : option value :=
  match fold_left pstep ts ([], XValue) with
  | ([], XDone v) => Some v
  | _ => None
  end.

(** The whole document. *)
Definition parse (s : string) : option value :=
  lex s ≫= parse_tokens.

(** The member of an object with the given name.  Of members with the
    same name the last one counts here, as in a Python [dict]; no
    property below is about a document that repeats a name. *)
Fixpoint member (key : text) (members : list (text * value)) : option value :=
  match members with
  | [] => None
  | (k, v) :: rest =>
      match member key rest with
      | Some v' => Some v'
      | None => if decide (k = key) then Some v else None
      end
  end.

End Json.

(** ** pydantic: validation of a JSON document against a model class

    The field lists are those of the class statements of the source (v5
    lines 24-49; v4 and v2 declare the same fields).  No field has a
    constraint.  Validation runs in pydantic's default (lax) mode, the
    mode [model_validate_json] uses when the class sets no configuration:
    a value of another JSON type is converted where pydantic's conversion
    table allows it.  Strings are converted to numbers when they are
    written as a JSON number (or as an optionally signed run of digits,
    for an integer); further spellings are left out of the table here. *)

Module Pydantic.

Import Json.

(** One line of a validation error: where, and the error type. *)
Definition line_error : Type := list string * string.

Definition checked (A : Type) : Type := list line_error + A.

Definition fail {A} (type : string) : checked A := inl [([], type)].

Definition ascii_of_text (t : text) : option (list ascii) :=
  mapM (fun n => if N.ltb n 128 then Some (ascii_of_N n) else None) t.

(** [str]: a JSON string, nothing else. *)
Definition validate_str (v : value) : checked text :=
  match v with
  | VString t => inr t
  | _ => fail "string_type"
  end.

Definition float_of_number (n : number) : pyfloat :=
  match n with
  | NInt z => Finite (inject_Z z)
  | NFloat x => x
  end.

(** [float]: a JSON number; in lax mode also a boolean or a numeric
    string. *)
Definition validate_float (v : value) : checked pyfloat :=
  match v with
  | VNumber n => inr (float_of_number n)
  | VBool b => inr (Finite (if b then 1 else 0))
  | VString t =>
      match ascii_of_text t ≫= parse_number with
      | Some n => inr (float_of_number n)
      | None => fail "float_parsing"
      end
  | _ => fail "float_type"
  end.

(** A float is an integer when it has no fractional part. *)
Definition int_of_float (x : pyfloat) : checked Z :=
  match x with
  | Finite q =>
      if Pos.eqb (Qden (Qred q)) 1 then inr (Qnum (Qred q))
      else fail "int_from_float"
  | _ => fail "finite_number"
  end.

Definition signed_digits (w : list ascii) : option Z :=
  let '(neg, ds) :=
    match w with
    | c :: r => if Ascii.eqb c "-" then (true, r) else (false, w)
    | [] => (false, [])
    end in
  match span_digits ds with
  | (_ :: _, []) => Some (if neg then - digits_value ds else digits_value ds)%Z
  | _ => None
  end.

(** [int]: a JSON integer; in lax mode also a boolean, a float without
    fractional part or a string of digits. *)
Definition validate_int (v : value) : checked Z :=
  match v with
  | VNumber (NInt z) => inr z
  | VNumber (NFloat x) => int_of_float x
  | VBool b => inr (if b then 1 else 0)%Z
  | VString t =>
      match ascii_of_text t ≫= signed_digits with
      | Some z => inr z
      | None => fail "int_parsing"
      end
  | _ => fail "int_type"
  end.

Definition bool_of_string (s : string) : option bool :=
  if existsb (String.eqb s) ["1"; "on"; "t"; "true"; "y"; "yes"] then Some true
  else if existsb (String.eqb s) ["0"; "off"; "f"; "false"; "n"; "no"] then Some false
  else None.

Definition bool_of_int (z : Z) : checked bool :=
  if Z.eqb z 0 then inr false
  else if Z.eqb z 1 then inr true
  else fail "bool_parsing".

(** [bool]: a JSON boolean; in lax mode also 0, 1 and the usual words. *)
Definition validate_bool (v : value) : checked bool :=
  match v with
  | VBool b => inr b
  | VNumber (NInt z) => bool_of_int z
  | VNumber (NFloat x) =>
      match int_of_float x with
      | inr z => bool_of_int z
      | inl _ => fail "bool_type"
      end
  | VString t =>
      match ascii_of_text t with
      | Some w =>
          match bool_of_string (PyStr.lower (string_of_list_ascii w)) with
          | Some b => inr b
          | None => fail "bool_parsing"
          end
      | None => fail "bool_parsing"
      end
  | _ => fail "bool_type"
  end.

Definition at_loc {A} (item : string) (r : checked A) : checked A :=
  match r with
  | inl errors => inl (map (fun '(loc, ty) => (item :: loc, ty)) errors)
  | inr a => inr a
  end.

Definition errors_of {A} (r : checked A) : list line_error :=
  match r with
  | inl errors => errors
  | inr _ => []
  end.

(** The items of a list, each checked, with the errors of all of them. *)
Fixpoint validate_items (i : nat) (items : list value) : checked (list text) :=
  match items with
  | [] => inr []
  | v :: rest =>
      match at_loc (pretty i) (validate_str v), validate_items (S i) rest with
      | inr t, inr ts => inr (t :: ts)
      | r1, r2 => inl (errors_of r1 ++ errors_of r2)
      end
  end.

(** [List[str]]: a JSON array of strings. *)
Definition validate_list_str (v : value) : checked (list text) :=
  match v with
  | VArray items => validate_items 0 items
  | _ => fail "list_type"
  end.

(** A required field. *)
Definition required {A} (name : string) (validate : value -> checked A)
    (members : list (text * value)) : checked A :=
  match member (text_of_string name) members with
  | Some v => at_loc name (validate v)
  | None => inl [([name], "missing")]
  end.

(** A field of type [Optional[T]] with default [None]. *)
Definition optional {A} (name : string) (validate : value -> checked A)
    (members : list (text * value)) : checked (option A) :=
  match member (text_of_string name) members with
  | Some VNull => inr None
  | Some v =>
      match at_loc name (validate v) with
      | inl errors => inl errors
      | inr a => inr (Some a)
      end
  | None => inr None
  end.

Definition validate_flight (ms : list (text * value))
    : checked Flight.FlightRecommendation :=
  match required "airline" validate_str ms,
        required "departure_time" validate_str ms,
        required "arrival_time" validate_str ms,
        required "price" validate_float ms,
        required "direct_flight" validate_bool ms,
        required "recommendation_reason" validate_str ms with
  | inr a, inr d, inr r, inr p, inr f, inr w =>
      inr {| Flight.airline := a; Flight.departure_time := d;
             Flight.arrival_time := r; Flight.price := p;
             Flight.direct_flight := f; Flight.recommendation_reason := w |}
  | a, d, r, p, f, w =>
      inl (errors_of a ++ errors_of d ++ errors_of r ++ errors_of p
           ++ errors_of f ++ errors_of w)
  end.

Definition validate_hotel (ms : list (text * value))
    : checked Hotel.HotelRecommendation :=
  match required "name" validate_str ms,
        required "location" validate_str ms,
        required "price_per_night" validate_float ms,
        required "amenities" validate_list_str ms,
        required "recommendation_reason" validate_str ms with
  | inr n, inr l, inr p, inr a, inr w =>
      inr {| Hotel.name := n; Hotel.location := l; Hotel.price_per_night := p;
             Hotel.amenities := a; Hotel.recommendation_reason := w |}
  | n, l, p, a, w =>
      inl (errors_of n ++ errors_of l ++ errors_of p ++ errors_of a
           ++ errors_of w)
  end.

Definition validate_plan (ms : list (text * value)) : checked Plan.TravelPlan :=
  match required "destination" validate_str ms,
        required "duration_days" validate_int ms,
        required "budget" validate_float ms,
        required "activities" validate_list_str ms,
        required "notes" validate_str ms with
  | inr d, inr n, inr b, inr a, inr t =>
      inr {| Plan.destination := d; Plan.duration_days := n; Plan.budget := b;
             Plan.activities := a; Plan.notes := t |}
  | d, n, b, a, t =>
      inl (errors_of d ++ errors_of n ++ errors_of b ++ errors_of a
           ++ errors_of t)
  end.

Definition validate_budget (ms : list (text * value))
    : checked Budget.BudgetAnalysis :=
  match required "is_realistic" validate_bool ms,
        required "reasoning" validate_str ms,
        optional "suggested_budget" validate_float ms with
  | inr i, inr r, inr s =>
      inr {| Budget.is_realistic := i; Budget.reasoning := r;
             Budget.suggested_budget := s |}
  | i, r, s => inl (errors_of i ++ errors_of r ++ errors_of s)
  end.

Definition title (k : SchemaKind) : string :=
  match k with
  | KFlight => "FlightRecommendation"
  | KHotel => "HotelRecommendation"
  | KPlan => "TravelPlan"
  | KBudget => "BudgetAnalysis"
  end.

(** The fields of a model class, checked on the members of an object;
    members that are no field are ignored. *)
Definition validate_model (k : SchemaKind) (ms : list (text * value))
    : checked (instance k) :=
  match k with
  | KFlight => validate_flight ms
  | KHotel => validate_hotel ms
  | KPlan => validate_plan ms
  | KBudget => validate_budget ms
  end.

(** [cls.model_validate_json(s)]: the instance, or the
    [ValidationError] raised. *)
Definition model_validate_json (k : SchemaKind) (s : string)
    : exn + instance k :=
  match parse s with
  | None => inl (ValidationError (title k) [([], "json_invalid")])
  | Some (VObject ms) =>
      match validate_model k ms with
      | inl errors => inl (ValidationError (title k) errors)
      | inr r => inr r
      end
  | Some _ => inl (ValidationError (title k) [([], "model_type")])
  end.

End Pydantic.

(** ** A scripted completion service, for concrete runs

    The replies are given in advance, one per call; validation is that of
    [Pydantic].  The schema dump and the renderings are stand-ins: the
    pipeline only copies them into prompts and messages. *)

Module Scripted.

Definition describe (e : exn) : string :=
  match e with
  | ValidationError t _ => "validation error for " +:+ t
  | IndexError => "list index out of range"
  | AttributeError => "'NoneType' object has no attribute 'strip'"
  | KeyError k => k
  | UnboundLocalError v => "local variable '" +:+ v +:+ "' referenced before assignment"
  | APIError m => m
  end.

Definition env (replies : list Reply) : Env :=
  {| model := "gpt-4o-mini";
     create := fun earlier _ =>
       default (Raises (APIError "Connection error.")) (replies !! List.length earlier);
     model_json_schema := Pydantic.title;
     model_validate_json := Pydantic.model_validate_json;
     repr_list := fun l => "[" +:+ PyStr.join ", " l +:+ "]";
     str_exn := describe |}.

Definition context : UserContext :=
  {| user_id := "user123";
     preferred_airlines := ["SkyWays"; "OceanAir"];
     hotel_amenities := ["WiFi"; "Pool"];
     budget_level := "mid-range";
     session_start := "2025-01-01T00:00:00" |}.

Definition world : World :=
  {| user_context := context; requests := []; stdout := [] |}.

(** A document written with apostrophes in the place of the double
    quotes. *)
Fixpoint doc (s : string) : string :=
  match s with
  | EmptyString => EmptyString
  | String c s' => String (if Ascii.eqb c "'" then Json.dquote else c) (doc s')
  end.

Definition unrealistic : string :=
  doc "```json
{'is_realistic': false, 'reasoning': 'too low', 'suggested_budget': 1500}
```".

Definition realistic : string :=
  doc "{'is_realistic': true, 'reasoning': 'fine'}".

Definition flight : string :=
  doc "{'airline': 'SkyWays', 'departure_time': '09:00', 'arrival_time': '12:00', 'price': 450, 'direct_flight': true, 'recommendation_reason': 'cheap'}".

Definition flight_string_price : string :=
  doc "{'airline': 'SkyWays', 'departure_time': '09:00', 'arrival_time': '12:00', 'price': '450', 'direct_flight': true, 'recommendation_reason': 'cheap'}".

Definition flight_float_price : string :=
  doc "{'airline': 'SkyWays', 'departure_time': '09:00', 'arrival_time': '12:00', 'price': 450.0, 'direct_flight': true, 'recommendation_reason': 'cheap'}".

Definition flight_negative_price : string :=
  doc "{'airline': 'SkyWays', 'departure_time': '09:00', 'arrival_time': '12:00', 'price': -5, 'direct_flight': true, 'recommendation_reason': 'cheap'}".

Definition hotel_negative_price : string :=
  doc "{'name': 'Ritz', 'location': 'Paris', 'price_per_night': -300.5, 'amenities': ['Pool'], 'recommendation_reason': 'pool'}".

Definition plan_negative : string :=
  doc "{'destination': 'Miami', 'duration_days': -5, 'budget': -2000, 'activities': [], 'notes': ''}".

Definition budget_negative : string :=
  doc "{'is_realistic': false, 'reasoning': 'too low', 'suggested_budget': -1500}".

Definition flight_incomplete : string := doc "{'airline': 'Delta'}".

End Scripted.


(** ** Builtin renderings used by v2 and v6

    What Python's builtins give for values the scripts print or format:
    [str] of a float, [str.upper], the [repr] of a list of [str] and of a
    dictionary, the bytes [print] writes for a [str], and the [repr] of
    the [UserContext] dataclass. *)
Record Builtins := {
  str_float : pyfloat -> text;
  str_upper : text -> text;
  repr_text_list : list text -> text;
  encode : text -> string;
  repr_context : UserContext -> string
}.

(** [for x in l: body(x)] *)
Fixpoint for_each {A} (l : list A) (body : A -> M unit) : M unit :=
  match l with
  | [] => ret tt
  | x :: l' => bind (body x) (fun _ => for_each l' body)
  end.

(** [c * n] for a one-character string [c]. *)
Fixpoint repeat_char (c : ascii) (n : nat) : string :=
  match n with
  | O => EmptyString
  | S n' => String c (repeat_char c n')
  end.

(** ** v2: the prompt and the loop of [main] *)

Module V2Main.
Section Run.

Variable E : Env.
Variable B : Builtins.

(** Line 12: v2 names its model itself. *)
Definition model : string := "gpt-4o-mini".

Definition build_prompt (query : string) : string :=
  "
You are a helpful and enthusiastic travel planning assistant.

Based on the following user request, generate a JSON response matching this schema:
- destination: string
- duration_days: integer
- budget: float
- activities: list of strings
- notes: a helpful string with extra suggestions

Respond ONLY with JSON matching that structure. No markdown, no explanation.

User query:
" +:+ String Json.dquote (query +:+ String Json.dquote (String PyStr.newline "")).

Definition queries : list string :=
  ["I'm planning a trip to Miami for 5 days with a budget of $2000. What should I do there?";
   "I want to visit Tokyo for a week with a budget of $3000. What activities do you recommend?"].

Definition request_of (query : string) : Request :=
  {| req_model := model;
     req_messages := user_message (build_prompt query);
     req_temperature := 7 # 10 |}.

(** Line 74: [enumerate(activities, i)] and the [print] of each. *)
Fixpoint print_activities (i : nat) (activities : list text) : M unit :=
  match activities with
  | [] => ret tt
  | activity :: rest =>
      bind (print ["  " +:+ pretty i +:+ ". " +:+ encode B activity])
           (fun _ => print_activities (S i) rest)
  end.

(** Lines 69-76: the pretty output of a validated plan. *)
Definition print_plan (travel_plan : Plan.TravelPlan) : M unit :=
  (print ["
🌍 TRAVEL PLAN FOR "
          +:+ encode B (str_upper B (Plan.destination travel_plan)) +:+ " 🌍"];;;
   print ["Duration: " +:+ pretty (Plan.duration_days travel_plan) +:+ " days"];;;
   print ["Budget: $" +:+ encode B (str_float B (Plan.budget travel_plan))];;;
   print ["
🎯 RECOMMENDED ACTIVITIES:"];;;
   print_activities 1 (Plan.activities travel_plan);;;
   print ["
📝 NOTES: " +:+ encode B (Plan.notes travel_plan)])%py.

(** Lines 78-81: [except ValidationError as e]. *)
Definition validation_failed (raw : string) (e : exn) : M unit :=
  (if is_ValidationError e then
     print ["
❌ Error parsing structured output:"];;;
     print [str_exn E e];;;
     print ["
Raw Output:
"; raw]
   else raise e)%py.

(** Lines 51-81: the body of the loop, for one query. *)
Definition process (query : string) : M unit :=
  (print [String PyStr.newline "" +:+ repeat_char "=" 60];;;
   print ["QUERY: " +:+ query];;;
   let prompt := build_prompt query in
   choices <- completions_create E (request_of query);;
   choice <- getitem choices 0;;
   raw <- content_strip choice;;
   let cleaned := PyStr.strip (Re.sub (PyStr.strip raw)) in
   try_except
     (travel_plan <- of_sum (model_validate_json E KPlan cleaned);;
      print_plan travel_plan)
     (validation_failed raw))%py.

Definition main : M unit := for_each queries process.

End Run.
End V2Main.

(** ** v6: how a result is shown, and one turn of the chat *)

Module V6Chat.

(** The values of the dictionary [model_dump()] gives. *)
Inductive dval :=
| DNone
| DBool (b : bool)
| DInt (z : Z)
| DFloat (x : pyfloat)
| DText (t : text)
| DList (l : list text).

(** [instance.model_dump()]: the fields by name. *)
Definition model_dump (k : SchemaKind) : instance k -> gmap string dval :=
  match k with
  | KFlight => fun r =>
      <["airline" := DText (Flight.airline r)]>
        (<["departure_time" := DText (Flight.departure_time r)]>
           (<["arrival_time" := DText (Flight.arrival_time r)]>
              (<["price" := DFloat (Flight.price r)]>
                 (<["direct_flight" := DBool (Flight.direct_flight r)]>
                    (<["recommendation_reason" := DText (Flight.recommendation_reason r)]> ∅)))))
  | KHotel => fun r =>
      <["name" := DText (Hotel.name r)]>
        (<["location" := DText (Hotel.location r)]>
           (<["price_per_night" := DFloat (Hotel.price_per_night r)]>
              (<["amenities" := DList (Hotel.amenities r)]>
                 (<["recommendation_reason" := DText (Hotel.recommendation_reason r)]> ∅))))
  | KPlan => fun r =>
      <["destination" := DText (Plan.destination r)]>
        (<["duration_days" := DInt (Plan.duration_days r)]>
           (<["budget" := DFloat (Plan.budget r)]>
              (<["activities" := DList (Plan.activities r)]>
                 (<["notes" := DText (Plan.notes r)]> ∅))))
  | KBudget => fun r =>
      <["is_realistic" := DBool (Budget.is_realistic r)]>
        (<["reasoning" := DText (Budget.reasoning r)]>
           (<["suggested_budget" :=
                match Budget.suggested_budget r with
                | Some x => DFloat x
                | None => DNone
                end]> ∅))
  end.

Definition lit (s : string) : text := text_of_string s.

Section Format.

Variable B : Builtins.

(** [str(v)], as an f-string inserts it. *)
Definition str_pyval (v : option pyval) : text :=
  match v with
  | None | Some PNone => lit "None"
  | Some (PStr t) => t
  | Some (PFloat x) => str_float B x
  end.

Definition str_dval (v : option dval) : text :=
  match v with
  | None | Some DNone => lit "None"
  | Some (DBool true) => lit "True"
  | Some (DBool false) => lit "False"
  | Some (DInt z) => lit (pretty z)
  | Some (DFloat x) => str_float B x
  | Some (DText t) => t
  | Some (DList l) => repr_text_list B l
  end.

(** The truth value of [d.get(key)]. *)
Definition truthy (v : option dval) : bool :=
  match v with
  | None | Some DNone => false
  | Some (DBool b) => b
  | Some (DInt z) => negb (Z.eqb z 0)
  | Some (DFloat (Finite q)) => negb (Qeq_bool q 0)
  | Some (DFloat _) => true
  | Some (DText t) => negb (Nat.eqb (List.length t) 0)
  | Some (DList l) => negb (Nat.eqb (List.length l) 0)
  end.

(** [for x in d.get(key, [])]: the values iterated over; a list gives
    its items, a [str] its characters, a missing key nothing, and
    anything else is not iterable ([None] here: Python raises
    [TypeError]). *)
Definition iterate (v : option dval) : option (list text) :=
  match v with
  | None => Some []
  | Some (DList l) => Some l
  | Some (DText t) => Some (map (fun c => [c]) t)
  | Some _ => None
  end.

(** [key in d] *)
Definition has_key (d : gmap string dval) (key : string) : bool :=
  match d !! key with
  | Some _ => true
  | None => false
  end.

Definition list_item (x : text) : text := lit "<li>" ++ x ++ lit "</li>".

(** Lines 94-98. *)
Definition guardrail_html (d : gmap string pyval) : text :=
  lit "
        <div style='color:#b30000;font-weight:bold;'>" ++ [9888; 65039]%N
  ++ lit " GUARDRAIL TRIGGERED</div>
        <p><strong>Reason:</strong> " ++ str_pyval (d !! "reasoning")
  ++ lit "</p>
        <p><strong>Suggested Budget:</strong> $" ++ str_pyval (d !! "suggested_budget")
  ++ lit "</p>
        ".

(** Lines 106-115. *)
Definition plan_html (result : gmap string dval) : option text :=
  let html :=
    lit "
            <h3>Travel Plan for " ++ str_dval (result !! "destination")
    ++ lit "</h3>
            <p><strong>Duration:</strong> " ++ str_dval (result !! "duration_days")
    ++ lit " days</p>
            <p><strong>Budget:</strong> $" ++ str_dval (result !! "budget")
    ++ lit "</p>
            <h4>Recommended Activities:</h4>
            <ul>" in
  activities ← iterate (result !! "activities");
  let html := fold_left (fun html activity => html ++ list_item activity) activities html in
  Some (html ++ lit "</ul><p><strong>Notes:</strong> " ++ str_dval (result !! "notes")
        ++ lit "</p>").

(** Lines 118-126. *)
Definition flight_html (result : gmap string dval) : text :=
  lit "
            <h3>Flight Recommendation</h3>
            <p><strong>Airline:</strong> " ++ str_dval (result !! "airline")
  ++ lit "</p>
            <p><strong>Departure:</strong> " ++ str_dval (result !! "departure_time")
  ++ lit "</p>
            <p><strong>Arrival:</strong> " ++ str_dval (result !! "arrival_time")
  ++ lit "</p>
            <p><strong>Price:</strong> $" ++ str_dval (result !! "price")
  ++ lit "</p>
            <p><strong>Direct Flight:</strong> "
  ++ (if truthy (result !! "direct_flight") then lit "Yes" else lit "No")
  ++ lit "</p>
            <p><strong>Why this flight:</strong> "
  ++ str_dval (result !! "recommendation_reason")
  ++ lit "</p>
            ".

(** Lines 129-138. *)
Definition hotel_html (result : gmap string dval) : option text :=
  let html :=
    lit "
            <h3>Hotel Recommendation: " ++ str_dval (result !! "name")
    ++ lit "</h3>
            <p><strong>Location:</strong> " ++ str_dval (result !! "location")
    ++ lit "</p>
            <p><strong>Price per night:</strong> $" ++ str_dval (result !! "price_per_night")
    ++ lit "</p>
            <h4>Amenities:</h4>
            <ul>" in
  amenities ← iterate (result !! "amenities");
  let html := fold_left (fun html amenity => html ++ list_item amenity) amenities html in
  Some (html ++ lit "</ul><p><strong>Why this hotel:</strong> "
        ++ str_dval (result !! "recommendation_reason") ++ lit "</p>").

(** Lines 104-140, for a dictionary [result]; [str_dict] is [str(result)]. *)
Definition format_dump (str_dict : text) (result : gmap string dval) : option text :=
  if has_key result "destination" then plan_html result
  else if has_key result "airline" then Some (flight_html result)
  else if (has_key result "name" && has_key result "amenities")%bool
       then hotel_html result
  else Some str_dict.

(** [response_dict.get("type") == "guardrail"] *)
Definition is_guardrail (d : gmap string pyval) : bool :=
  match d !! "type" with
  | Some (PStr t) => bool_decide (t = lit "guardrail")
  | _ => false
  end.

(** [format_agent_response(response_dict)] (lines 86-140), for what
    [handle_query] returns; [None] when Python raises.  A model instance
    is first wrapped as the dictionary with the one key "result", whose
    value is the dump; a dictionary given as it is has values that are no
    dictionaries, so its "result" goes to [str] at line 140.  [str_dict]
    gives [str] of a dump. *)
Definition format_agent_response (str_dict : gmap string dval -> text)
    (response_dict : result) : option text :=
  match response_dict with
  | Object k r => format_dump (str_dict (model_dump k r)) (model_dump k r)
  | Dict d =>
      if is_guardrail d then Some (guardrail_html d)
      else Some (str_pyval (d !! "result"))
  end.

End Format.

(** One entry of [st.session_state.chat_history]. *)
Record Message := {
  role : string;
  content : text;
  timestamp : string
}.

(** The session state besides the user context, which is the object of
    the world. *)
Record Session := {
  chat_history : list Message;
  thread_id : string;
  processing_message : option string;
  user_input_value : string
}.

(** What may be raised inside the [try] of the page: an exception of the
    pipeline, or the [TypeError] of the formatting. *)
Inductive ui_exn :=
| Pipeline (e : exn)
| TypeError.

Definition UI (A : Type) : Type :=
  Session * World -> (ui_exn + A) * (Session * World).

Definition ui_ret {A} (a : A) : UI A := fun st => (inr a, st).

Definition ui_raise {A} (e : ui_exn) : UI A := fun st => (inl e, st).

Definition ui_bind {A C} (m : UI A) (f : A -> UI C) : UI C :=
  fun st =>
    match m st with
    | (inr a, st') => f a st'
    | (inl e, st') => (inl e, st')
    end.

(** A computation of the pipeline, run on the world of the page. *)
Definition lift {A} (m : M A) : UI A :=
  fun '(s, w) =>
    match m w with
    | (Return a, w') => (inr a, (s, w'))
    | (Raise e, w') => (inl (Pipeline e), (s, w'))
    end.

Definition ui_try {A} (body : UI A) (handler : ui_exn -> UI A) : UI A :=
  fun st =>
    match body st with
    | (inl e, st') => handler e st'
    | r => r
    end.

Definition get_session : UI Session := fun st => (inr (fst st), st).

Definition modify (f : Session -> Session) : UI unit :=
  fun '(s, w) => (inr tt, (f s, w)).

Declare Scope ui_scope.
Delimit Scope ui_scope with ui.
Notation "x <- m ;; k" := (ui_bind m (fun x => k))
  (at level 100, m at next level, right associativity) : ui_scope.
Notation "m ;;; k" := (ui_bind m (fun _ => k))
  (at level 100, right associativity) : ui_scope.

(** The truth value of a [str]. *)
Definition nonempty (s : string) : bool := negb (String.eqb s "").

Definition append_message (m : Message) (s : Session) : Session :=
  {| chat_history := chat_history s ++ [m];
     thread_id := thread_id s;
     processing_message := processing_message s;
     user_input_value := user_input_value s |}.

Definition set_processing (p : option string) (s : Session) : Session :=
  {| chat_history := chat_history s;
     thread_id := thread_id s;
     processing_message := p;
     user_input_value := user_input_value s |}.

Definition clear_input (s : Session) : Session :=
  {| chat_history := chat_history s;
     thread_id := thread_id s;
     processing_message := processing_message s;
     user_input_value := "" |}.

(** [handle_user_message(user_input)] (lines 143-151); [now] is the
    clock reading of line 144, already formatted. *)
Definition handle_user_message (now : string) (user_input : string) : UI unit :=
  (modify (append_message {| role := "user"; content := lit user_input;
                             timestamp := now |});;;
   modify (set_processing (Some user_input));;;
   modify clear_input)%ui.

(** Lines 193-195: [user_input] is what the text field returns. *)
Definition input_field (now : string) (user_input : string) : UI unit :=
  (s <- get_session;;
   match processing_message s with
   | None => if nonempty user_input then handle_user_message now user_input
             else ui_ret tt
   | Some _ => ui_ret tt
   end)%ui.

Section Page.

Variable E : Env.
Variable B : Builtins.
Variable str_dict : gmap string dval -> text.
Variable type_error_message : string.

(** [str(e)] at line 209. *)
Definition str_ui_exn (e : ui_exn) : string :=
  match e with
  | Pipeline e' => str_exn E e'
  | TypeError => type_error_message
  end.

(** Line 209; the cross mark is U+274C. *)
Definition error_content (e : ui_exn) : text :=
  [10060%N] ++ lit " Error: " ++ lit (str_ui_exn e).

(** Lines 204-207, the body of the [try]. *)
Definition respond (query : string) : UI text :=
  (context <- lift get_context;;
   lift (print ["🧠 DEBUG - UserContext:"; repr_context B context]);;;
   result <- lift (V5.handle_query E query);;
   response_content <-
     match format_agent_response B str_dict result with
     | Some html => ui_ret html
     | None => ui_raise TypeError
     end;;
   lift (print ["🧪 DEBUG - Formatted HTML:"; encode B response_content]);;;
   ui_ret response_content)%ui.

(** Lines 198-215: the pending message, if there is one, is answered;
    [now] is the clock reading of line 214. *)
Definition agent_execution (now : string) : UI unit :=
  (s <- get_session;;
   match processing_message s with
   | Some query =>
       if nonempty query then
         modify (set_processing None);;;
         response_content <-
           ui_try (respond query) (fun e => ui_ret (error_content e));;
         modify (append_message {| role := "assistant";
                                   content := response_content;
                                   timestamp := now |})
       else ui_ret tt
   | None => ui_ret tt
   end)%ui.

(** Lines 193-215: one run of the script from the text field on. *)
Definition chat_turn (now_user now_agent : string) (user_input : string) : UI unit :=
  (input_field now_user user_input;;; agent_execution now_agent)%ui.

End Page.

(** Lines 182-186: the button that starts a new conversation; [fresh]
    is the new identifier. *)
Definition new_conversation (fresh : string) : UI unit :=
  modify (fun s =>
    {| chat_history := [];
       thread_id := fresh;
       processing_message := None;
       user_input_value := user_input_value s |}).

End V6Chat.

(** ** A service that always gives the same reply, for concrete runs *)

Module Steady.

Definition env (reply : Reply) : Env :=
  {| model := "gpt-4o-mini";
     create := fun _ _ => reply;
     model_json_schema := Pydantic.title;
     model_validate_json := Pydantic.model_validate_json;
     repr_list := fun l => "[" +:+ PyStr.join ", " l +:+ "]";
     str_exn := Scripted.describe |}.

(** Stand-ins for the builtin renderings: only ASCII text is rendered,
    floats by their numerator. *)
Definition builtins : Builtins :=
  {| str_float := fun x =>
       match x with
       | Finite q => text_of_string (pretty (Qnum q))
       | NaN => text_of_string "nan"
       | Infinity _ => text_of_string "inf"
       end;
     str_upper := fun t => t;
     repr_text_list := fun l => List.concat l;
     encode := fun t => string_of_list_ascii (map ascii_of_N t);
     repr_context := fun c => user_id c |}.

Definition session : V6Chat.Session :=
  {| V6Chat.chat_history := [];
     V6Chat.thread_id := "thread-1";
     V6Chat.processing_message := None;
     V6Chat.user_input_value := "" |}.

End Steady.

(** ** Specifications *)

(** [p] occurs in [s] as a substring. *)
Definition occurs (p s : string) : Prop :=
  exists a b : string, s = a +:+ p +:+ b.

(** The routing policy in words: "flight" first, then "hotel", then the
    default. *)
Inductive routed (query : string) : string * SchemaKind -> Prop :=
| routed_flight :
    occurs "flight" (PyStr.lower query) ->
    routed query ("flight", KFlight)
| routed_hotel :
    ~ occurs "flight" (PyStr.lower query) ->
    occurs "hotel" (PyStr.lower query) ->
    routed query ("hotel", KHotel)
| routed_plan :
    ~ occurs "flight" (PyStr.lower query) ->
    ~ occurs "hotel" (PyStr.lower query) ->
    routed query ("plan", KPlan).

(** The ways the guardrail path of v5 can fail: the call raises, the
    response has no choice, the content cannot be stripped of its fence,
    or the stripped text is rejected by the validator. *)
Inductive guardrail_failure (E : Env) (query : string) (w : World) : exn -> Prop :=
| gateway_raises e :
    create E (requests w) (V5.guardrail_request E query) = Raises e ->
    guardrail_failure E query w e
| no_choice :
    create E (requests w) (V5.guardrail_request E query) = Response [] ->
    guardrail_failure E query w IndexError
| sanitization_fails content rest e :
    create E (requests w) (V5.guardrail_request E query) = Response (content :: rest) ->
    V5.strip_fence content = inl e ->
    guardrail_failure E query w e
| validation_fails content rest guardrail_json e :
    create E (requests w) (V5.guardrail_request E query) = Response (content :: rest) ->
    V5.strip_fence content = inr guardrail_json ->
    model_validate_json E KBudget guardrail_json = inl e ->
    guardrail_failure E query w e.

(** The exceptions of the main request of v5 that no handler takes: one
    that is no [ValidationError], raised while [output_raw] is computed
    (by the call of the service, by the access to the content, by the
    fence stripping) or by the validator. *)
Inductive main_request_raises (E : Env) (query : string) (w : World) : exn -> Prop :=
| fetch_raises e :
    fst (V5.fetch_output E (fst (route query)) query w) = Raise e ->
    is_ValidationError e = false ->
    main_request_raises E query w e
| validator_raises output_raw e :
    fst (V5.fetch_output E (fst (route query)) query w) = Return output_raw ->
    model_validate_json E (snd (route query)) output_raw = inl e ->
    is_ValidationError e = false ->
    main_request_raises E query w e.

(** A computation that leaves the shared [UserContext] object as it
    found it. *)
Definition keeps_context {A} (m : M A) : Prop :=
  forall w, user_context (snd (m w)) = user_context w.

(** Every character of [s] satisfies [p]. *)
Fixpoint every (p : ascii -> bool) (s : string) : bool :=
  match s with
  | EmptyString => true
  | String c s' => (p c && every p s')%bool
  end.

(** [j] wrapped in a fence tagged json: the opening fence and the tag, a
    newline, [j], the closing fence. *)
Definition fenced (j : string) : string :=
  "```json" +:+ String PyStr.newline (j +:+ "```").

(** An input on which none of the patterns of the v5 fence stripping
    matches: no whitespace and no backtick at either end, no leading
    "json". *)
Definition plain_v5 (s : string) : Prop :=
  PyStr.strip s = s
  /\ PyStr.strip_backticks s = s
  /\ PyStr.startswith "json" s = false.

(** An input on which none of the patterns of the v2 cleaning matches: no
    whitespace at either end, no leading fence tagged json (in any case),
    no closing fence at the end. *)
Definition plain_v2 (s : string) : Prop :=
  PyStr.strip s = s
  /\ Re.startswith_ignorecase "```json" s = false
  /\ forall a, s <> a +:+ "```".

(** The ways [handle_query] of v4 ends with an exception [e]: the call of
    the service raises, the response has no usable content, or the
    validator raises something that is no [ValidationError]. *)
Inductive v4_raises (E : Env) (query : string) (w : World) : exn -> Prop :=
| v4_gateway_raises e prompt :
    prompt = V4.build_prompt E (fst (route query)) query ->
    create E (requests w) {| req_model := model E;
                             req_messages := user_message prompt;
                             req_temperature := 7 # 10 |} = Raises e ->
    v4_raises E query w e
| v4_no_content e prompt choices :
    prompt = V4.build_prompt E (fst (route query)) query ->
    create E (requests w) {| req_model := model E;
                             req_messages := user_message prompt;
                             req_temperature := 7 # 10 |} = Response choices ->
    (choices = [] /\ e = IndexError
     \/ (exists rest, choices = None :: rest) /\ e = AttributeError) ->
    v4_raises E query w e
| v4_validator_raises e prompt content rest :
    prompt = V4.build_prompt E (fst (route query)) query ->
    create E (requests w) {| req_model := model E;
                             req_messages := user_message prompt;
                             req_temperature := 7 # 10 |}
    = Response (Some content :: rest) ->
    model_validate_json E (snd (route query)) (PyStr.strip content) = inl e ->
    is_ValidationError e = false ->
    v4_raises E query w e.

(** The text the v5 fence stripping looks at: the content stripped of
    whitespace, of backticks and of whitespace again. *)
Definition stripped (c : string) : string :=
  PyStr.strip (PyStr.strip_backticks (PyStr.strip c)).

(** No newline occurs in [s]. *)
Definition one_line (s : string) : Prop :=
  forall a b, s <> a +:+ String PyStr.newline b.

(** [j] in a fence without a tag, each fence on a line of its own. *)
Definition fenced_untagged (j : string) : string :=
  "```" +:+ String PyStr.newline (j +:+ String PyStr.newline "```").

(** [j] in a fence whose tag is written in capitals. *)
Definition fenced_upper (j : string) : string :=
  "```JSON" +:+ String PyStr.newline (j +:+ "```").

(** A computation that only adds to the log of calls and to the output. *)
Definition only_appends {A} (m : M A) : Prop :=
  forall w, exists rs ps,
    requests (snd (m w)) = requests w ++ rs
    /\ stdout (snd (m w)) = stdout w ++ ps.

(** A plan with other activities, a hotel with other amenities. *)
Definition with_activities (r : Plan.TravelPlan) (l : list text) : Plan.TravelPlan :=
  {| Plan.destination := Plan.destination r;
     Plan.duration_days := Plan.duration_days r;
     Plan.budget := Plan.budget r;
     Plan.activities := l;
     Plan.notes := Plan.notes r |}.

Definition with_amenities (r : Hotel.HotelRecommendation) (l : list text)
    : Hotel.HotelRecommendation :=
  {| Hotel.name := Hotel.name r;
     Hotel.location := Hotel.location r;
     Hotel.price_per_night := Hotel.price_per_night r;
     Hotel.amenities := l;
     Hotel.recommendation_reason := Hotel.recommendation_reason r |}.

(** * Properties *)

#[local] Arguments String.append !s1 s2 : simpl nomatch.

(** ** Strings *)

Lemma startswith_spec (p s : string) :
  PyStr.startswith p s = true <-> exists b, s = p +:+ b.
Proof.
  revert s. induction p as [|a p IH]; intros s; simpl.
  - split; [intros _; exists s; reflexivity | reflexivity].
  - destruct s as [|b s]; simpl.
    + split; [discriminate | intros [r Hr]; discriminate].
    + rewrite andb_true_iff, Ascii.eqb_eq, IH. split.
      * intros [-> [r ->]]. exists r. reflexivity.
      * intros [r Hr]. injection Hr as -> ->. split; [reflexivity | exists r; reflexivity].
Qed.

Lemma contains_spec (p s : string) :
  PyStr.contains p s = true <-> occurs p s.
Proof.
  induction s as [|c s IH].
  - simpl. rewrite orb_false_r, startswith_spec. split.
    + intros [b Hb]. exists EmptyString, b. exact Hb.
    + intros [a [b Hab]]. destruct a; [exists b; exact Hab | discriminate].
  - cbn [PyStr.contains]. rewrite orb_true_iff, IH, startswith_spec. split.
    + intros [[b Hb] | [a [b Hab]]].
      * exists EmptyString, b. exact Hb.
      * exists (String c a), b. simpl. rewrite Hab. reflexivity.
    + intros [a [b Hab]]. destruct a as [|c' a].
      * left. exists b. exact Hab.
      * right. simpl in Hab. injection Hab as _ Hab. exists a, b. exact Hab.
Qed.

Lemma contains_false (p s : string) :
  PyStr.contains p s = false <-> ~ occurs p s.
Proof.
  rewrite <- contains_spec, not_true_iff_false. reflexivity.
Qed.

(** ** Routing *)

(** C3. Routing goes by the keywords of the lowercased query: a query in
    which "flight" occurs gets the flight schema (also when "hotel" occurs
    too); otherwise one in which "hotel" occurs gets the hotel schema;
    every other query gets the travel plan.  [route] is a total function,
    so routing never fails. *)
Theorem route_by_keyword (query : string) : routed query (route query).
Proof.
  unfold route.
  destruct (PyStr.contains "flight" (PyStr.lower query)) eqn:Hf.
  - apply routed_flight. apply contains_spec. exact Hf.
  - apply contains_false in Hf.
    destruct (PyStr.contains "hotel" (PyStr.lower query)) eqn:Hh.
    + apply routed_hotel; [exact Hf | apply contains_spec; exact Hh].
    + apply routed_plan; [exact Hf | apply contains_false; exact Hh].
Qed.

Example route_flight : route "Find me a flight to Boston" = ("flight", KFlight).
Proof. reflexivity. Qed.

Example route_hotel : route "hotel in Rome" = ("hotel", KHotel).
Proof. reflexivity. Qed.

Example route_plan : route "plan my trip" = ("plan", KPlan).
Proof. reflexivity. Qed.

Example route_both : route "A HOTEL near my Flight" = ("flight", KFlight).
Proof. reflexivity. Qed.

(** ** The shared context is only read *)

Create HintDb frame.

Lemma keeps_ret {A} (a : A) : keeps_context (ret a).
Proof. intros w. reflexivity. Qed.

Lemma keeps_raise {A} (e : exn) : keeps_context (@raise A e).
Proof. intros w. reflexivity. Qed.

Lemma keeps_bind {A B} (m : M A) (f : A -> M B) :
  keeps_context m -> (forall a, keeps_context (f a)) -> keeps_context (bind m f).
Proof.
  intros Hm Hf w. unfold bind. specialize (Hm w).
  destruct (m w) as [[a|e] w']; simpl in *; [rewrite Hf | ]; exact Hm.
Qed.

Lemma keeps_try_except {A} (body : M A) (handler : exn -> M A) :
  keeps_context body -> (forall e, keeps_context (handler e)) ->
  keeps_context (try_except body handler).
Proof.
  intros Hb Hh w. unfold try_except. specialize (Hb w).
  destruct (body w) as [[a|e] w']; simpl in *; [ | rewrite Hh]; exact Hb.
Qed.

Lemma keeps_try_bind_except {A B} (first : M A) (rest : A -> M B)
    (handler : option A -> exn -> M B) :
  keeps_context first -> (forall a, keeps_context (rest a)) ->
  (forall o e, keeps_context (handler o e)) ->
  keeps_context (try_bind_except first rest handler).
Proof.
  intros Hf Hr Hh w. unfold try_bind_except. specialize (Hf w).
  destruct (first w) as [[a|e] w1]; simpl in *.
  - specialize (Hr a w1).
    destruct (rest a w1) as [[b|e] w2]; simpl in *;
      [ | rewrite Hh]; congruence.
  - rewrite Hh. exact Hf.
Qed.

Lemma keeps_of_sum {A} (r : exn + A) : keeps_context (of_sum r).
Proof. destruct r; intros w; reflexivity. Qed.

Lemma keeps_getitem {A} (l : list A) (i : nat) : keeps_context (getitem l i).
Proof. unfold getitem. destruct (l !! i); intros w; reflexivity. Qed.

Lemma keeps_getitem_dict {A} (d : gmap string A) (key : string) :
  keeps_context (getitem_dict d key).
Proof. unfold getitem_dict. destruct (d !! key); intros w; reflexivity. Qed.

Lemma keeps_content_strip (content : option string) :
  keeps_context (content_strip content).
Proof. destruct content; intros w; reflexivity. Qed.

Lemma keeps_get_context : keeps_context get_context.
Proof. intros w. reflexivity. Qed.

Lemma keeps_print (args : list string) : keeps_context (print args).
Proof. intros w. reflexivity. Qed.

Lemma keeps_completions_create (E : Env) (rq : Request) :
  keeps_context (completions_create E rq).
Proof.
  intros w. unfold completions_create.
  destruct (create E (requests w) rq); reflexivity.
Qed.

#[local] Hint Resolve keeps_ret keeps_raise keeps_of_sum keeps_getitem
  keeps_getitem_dict keeps_content_strip keeps_get_context keeps_print
  keeps_completions_create : frame.

Ltac frame :=
  repeat first
    [ apply keeps_bind; [ | intros ? ]
    | apply keeps_try_except; [ | intros ? ]
    | apply keeps_try_bind_except; [ | intros ? | intros ? ? ]
    | solve [ auto with frame ]
    | match goal with
      | |- keeps_context (if ?b then _ else _) => destruct b
      | |- keeps_context (match ?o with Some _ => _ | None => _ end) => destruct o
      | |- keeps_context (let '(_, _) := ?p in _) => destruct p
      end ].

Lemma keeps_build_prompt (E : Env) (task_type query : string) (context : UserContext) :
  keeps_context (V5.build_prompt E task_type query context).
Proof. unfold V5.build_prompt. frame. Qed.

Lemma keeps_guardrail_stage (E : Env) (query : string) :
  keeps_context (V5.guardrail_stage E query).
Proof.
  unfold V5.guardrail_stage, V5.guardrail_check, V5.guardrail_failed. frame.
Qed.

Lemma keeps_main_request (E : Env) (query : string) :
  keeps_context (V5.main_request E query).
Proof.
  unfold V5.main_request, V5.fetch_output, V5.validation_failed.
  pose proof keeps_build_prompt. frame.
Qed.

(** The explicit update of v6 is a computation that does change the
    object. *)
Lemma save_preferences_changes_context :
  ~ keeps_context (V6.save_preferences ["Delta"] ["Spa"] "luxury").
Proof. intros H. specialize (H Scripted.world). discriminate H. Qed.

(** C9. [handle_query] of v5 leaves every field of the [UserContext]
    object it was given unchanged, whatever the service replies and
    however the call ends: the object is only read, to build the prompt. *)
Theorem handle_query_keeps_context (E : Env) (query : string) (w : World) :
  let w' := snd (V5.handle_query E query w) in
  user_context w' = user_context w
  /\ user_id (user_context w') = user_id (user_context w)
  /\ preferred_airlines (user_context w') = preferred_airlines (user_context w)
  /\ hotel_amenities (user_context w') = hotel_amenities (user_context w)
  /\ budget_level (user_context w') = budget_level (user_context w)
  /\ session_start (user_context w') = session_start (user_context w).
Proof.
  assert (H : keeps_context (V5.handle_query E query)).
  { unfold V5.handle_query.
    pose proof (keeps_guardrail_stage E query).
    pose proof (keeps_main_request E query). frame. }
  simpl. rewrite (H w). repeat split.
Qed.

(** ** The guardrail *)

Lemma guardrail_dict_lookup (b : Budget.BudgetAnalysis) :
  V5.guardrail_dict b !! "type" = Some (PStr (text_of_string "guardrail"))
  /\ V5.guardrail_dict b !! "reasoning" = Some (PStr (Budget.reasoning b))
  /\ V5.guardrail_dict b !! "suggested_budget"
     = Some (match Budget.suggested_budget b with
             | Some x => PFloat x
             | None => PNone
             end).
Proof.
  unfold V5.guardrail_dict. split; [ | split].
  - rewrite !lookup_insert_ne by discriminate. apply lookup_insert_eq.
  - rewrite lookup_insert_ne by discriminate. apply lookup_insert_eq.
  - apply lookup_insert_eq.
Qed.

(** C1. When the completion of the guardrail call, stripped of its fence,
    validates as a [BudgetAnalysis] whose [is_realistic] is false,
    [handle_query] returns the guardrail dictionary with the reasoning and
    the suggested budget of that analysis, and the world it leaves has
    exactly one more call of the service than before: the guardrail call.
    The main request is not issued. *)
Theorem guardrail_block_skips_main_request (E : Env) (query : string) (w : World)
    (content : option string) (rest : list (option string))
    (guardrail_json : string) (budget_info : Budget.BudgetAnalysis) :
  create E (requests w) (V5.guardrail_request E query) = Response (content :: rest) ->
  V5.strip_fence content = inr guardrail_json ->
  model_validate_json E KBudget guardrail_json = inr budget_info ->
  Budget.is_realistic budget_info = false ->
  V5.handle_query E query w
  = (Return (Dict (V5.guardrail_dict budget_info)),
     record_request (V5.guardrail_request E query) w)
  /\ requests (snd (V5.handle_query E query w))
     = requests w ++ [V5.guardrail_request E query]
  /\ V5.guardrail_dict budget_info !! "type" = Some (PStr (text_of_string "guardrail"))
  /\ V5.guardrail_dict budget_info !! "reasoning"
     = Some (PStr (Budget.reasoning budget_info))
  /\ V5.guardrail_dict budget_info !! "suggested_budget"
     = Some (match Budget.suggested_budget budget_info with
             | Some x => PFloat x
             | None => PNone
             end).
Proof.
  intros Hcreate Hstrip Hvalid Hreal.
  assert (Hrun : V5.handle_query E query w
                 = (Return (Dict (V5.guardrail_dict budget_info)),
                    record_request (V5.guardrail_request E query) w)).
  { unfold V5.handle_query, V5.guardrail_stage, V5.guardrail_check,
      try_except, bind, completions_create.
    rewrite Hcreate. cbn [getitem lookup list_lookup ret].
    rewrite Hstrip. cbn [of_sum ret]. rewrite Hvalid. cbn [of_sum ret].
    rewrite Hreal. reflexivity. }
  split; [exact Hrun | ]. split; [rewrite Hrun; reflexivity | ].
  apply guardrail_dict_lookup.
Qed.

Lemma guardrail_block_skips_main_request_witness :
  let E := Scripted.env [Response [Some Scripted.unrealistic]] in
  let query := "I want to go to India for 500 dollars" in
  let b := {| Budget.is_realistic := false;
              Budget.reasoning := text_of_string "too low";
              Budget.suggested_budget := Some (Finite 1500) |} in
  V5.handle_query E query Scripted.world
  = (Return (Dict (V5.guardrail_dict b)),
     record_request (V5.guardrail_request E query) Scripted.world)
  /\ requests (snd (V5.handle_query E query Scripted.world))
     = [V5.guardrail_request E query]
  /\ V5.guardrail_dict b !! "suggested_budget" = Some (PFloat (Finite 1500)).
Proof.
  intros E query b.
  destruct (guardrail_block_skips_main_request E query Scripted.world
              (Some Scripted.unrealistic) []
              (Scripted.doc "{'is_realistic': false, 'reasoning': 'too low', 'suggested_budget': 1500}")
              b)
    as (H1 & H2 & _ & _ & H5); [ reflexivity | vm_compute; reflexivity
                                | vm_compute; reflexivity | reflexivity | ].
  split; [exact H1 | split; [exact H2 | exact H5]].
Defined.

Lemma guardrail_stage_failure (E : Env) (query : string) (w : World) (e : exn) :
  guardrail_failure E query w e ->
  V5.guardrail_stage E query w
  = (Return None,
     snd (print ["Budget check failed:"; str_exn E e]
            (record_request (V5.guardrail_request E query) w))).
Proof.
  intros H.
  unfold V5.guardrail_stage, V5.guardrail_check, try_except, bind,
    completions_create.
  destruct H as [e Hc | Hc | content rest e Hc Hs | content rest js e Hc Hs Hv];
    rewrite Hc; cbn [getitem lookup list_lookup ret raise]; try reflexivity.
  - rewrite Hs. reflexivity.
  - rewrite Hs. cbn [of_sum ret]. rewrite Hv. reflexivity.
Qed.

(** The failures listed by [guardrail_failure] are exactly the exceptions
    of the body of the first [try]. *)
Lemma guardrail_check_raise_iff (E : Env) (query : string) (w : World) (e : exn) :
  fst (V5.guardrail_check E query w) = Raise e <-> guardrail_failure E query w e.
Proof.
  unfold V5.guardrail_check, bind, completions_create. split.
  - destruct (create E (requests w) (V5.guardrail_request E query))
      as [e0|choices] eqn:Hc.
    + intros [= ->]. apply gateway_raises. exact Hc.
    + destruct choices as [|content rest]; cbn [getitem lookup list_lookup ret raise].
      * intros [= <-]. apply no_choice. exact Hc.
      * destruct (V5.strip_fence content) as [e1|js] eqn:Hs; cbn [of_sum ret raise].
        -- intros [= ->]. eapply sanitization_fails; eassumption.
        -- destruct (model_validate_json E KBudget js) as [e2|b] eqn:Hv;
             cbn [of_sum ret raise].
           ++ intros [= ->]. eapply validation_fails; eassumption.
           ++ destruct (negb (Budget.is_realistic b)); discriminate.
  - intros [e0 Hc | Hc | content rest e0 Hc Hs | content rest js e0 Hc Hs Hv];
      rewrite Hc; cbn [getitem lookup list_lookup ret raise]; try reflexivity.
    + rewrite Hs. reflexivity.
    + rewrite Hs. cbn [of_sum ret]. rewrite Hv. reflexivity.
Qed.

(** The first [try] statement never raises: it returns the guardrail
    dictionary or falls through. *)
Lemma guardrail_stage_returns (E : Env) (query : string) (w : World) :
  exists o w1, V5.guardrail_stage E query w = (Return o, w1).
Proof.
  unfold V5.guardrail_stage, V5.guardrail_check, V5.guardrail_failed,
    try_except, bind, completions_create.
  destruct (create E (requests w) (V5.guardrail_request E query)) as [e|choices];
    [eauto | ].
  destruct choices as [|content rest]; cbn [getitem lookup list_lookup ret raise];
    [eauto | ].
  destruct (V5.strip_fence content) as [e|js]; cbn [of_sum ret raise]; [eauto | ].
  destruct (model_validate_json E KBudget js) as [e|b]; cbn [of_sum ret raise];
    [eauto | ].
  destruct (negb (Budget.is_realistic b)); eauto.
Qed.

(** ** The main request *)

Lemma build_prompt_routed (E : Env) (query : string) (context : UserContext) (w : World) :
  exists p, V5.build_prompt E (fst (route query)) query context w = (Return p, w).
Proof.
  unfold route, V5.build_prompt, bind, getitem_dict.
  destruct (PyStr.contains "flight" (PyStr.lower query));
    [ | destruct (PyStr.contains "hotel" (PyStr.lower query))]; cbn [fst].
  - rewrite !lookup_insert_ne by discriminate. rewrite lookup_insert_eq. eauto.
  - rewrite lookup_insert_ne by discriminate. rewrite lookup_insert_eq. eauto.
  - rewrite lookup_insert_eq. eauto.
Qed.

Lemma main_request_run (E : Env) (query : string) (w : World) :
  V5.main_request E query w
  = match V5.fetch_output E (fst (route query)) query w with
    | (Raise e, w1) => V5.validation_failed E None e w1
    | (Return output_raw, w1) =>
        match model_validate_json E (snd (route query)) output_raw with
        | inr r => (Return (Object (snd (route query)) r), w1)
        | inl e => V5.validation_failed E (Some output_raw) e w1
        end
    end.
Proof.
  unfold V5.main_request. destruct (route query) as [task_type model_type].
  cbn [fst snd]. unfold try_bind_except.
  destruct (V5.fetch_output E task_type query w) as [[raw|e] w1]; [ | reflexivity].
  unfold bind.
  destruct (model_validate_json E model_type raw); reflexivity.
Qed.

Lemma validation_failed_unbound (E : Env) (e : exn) (w : World) :
  is_ValidationError e = true ->
  fst (V5.validation_failed E None e w) = Raise (UnboundLocalError "output_raw").
Proof. intros H. unfold V5.validation_failed. rewrite H. reflexivity. Qed.

Lemma validation_failed_bound (E : Env) (output_raw : string) (e : exn) (w : World) :
  is_ValidationError e = true ->
  exists w', V5.validation_failed E (Some output_raw) e w
             = (Return (Dict (V5.error_dict E e)), w')
             /\ requests w' = requests w
             /\ last (stdout w')
                = Some (PyStr.join " " ["
Raw Output:
"; output_raw] +:+ String PyStr.newline "").
Proof.
  intros H. unfold V5.validation_failed. rewrite H.
  eexists. split; [reflexivity | ]. split; [reflexivity | ].
  cbn [stdout write_stdout snd print]. apply last_snoc.
Qed.

Lemma validation_failed_other (E : Env) (o : option string) (e : exn) (w : World) :
  is_ValidationError e = false ->
  V5.validation_failed E o e w = (Raise e, w).
Proof. intros H. unfold V5.validation_failed. rewrite H. reflexivity. Qed.

Lemma validation_failed_requests (E : Env) (o : option string) (e : exn) (w : World) :
  requests (snd (V5.validation_failed E o e w)) = requests w.
Proof.
  unfold V5.validation_failed.
  destruct (is_ValidationError e); [ | reflexivity]. destruct o; reflexivity.
Qed.

(** The main request issues exactly one call of the service. *)
Lemma main_request_calls (E : Env) (query : string) (w : World) :
  exists main_prompt,
    requests (snd (V5.main_request E query w))
    = requests w ++ [V5.main_request_of E main_prompt].
Proof.
  rewrite main_request_run.
  destruct (build_prompt_routed E query (user_context w) w) as [p Hp].
  exists p.
  assert (Hf : requests (snd (V5.fetch_output E (fst (route query)) query w))
               = requests w ++ [V5.main_request_of E p]).
  { unfold V5.fetch_output, bind, get_context. rewrite Hp.
    unfold completions_create.
    destruct (create E (requests w) (V5.main_request_of E p)) as [e|choices];
      [reflexivity | ].
    destruct choices as [|content rest]; [reflexivity | ].
    cbn [getitem lookup list_lookup ret].
    destruct (V5.strip_fence content); reflexivity. }
  destruct (V5.fetch_output E (fst (route query)) query w) as [[raw|e] w1];
    cbn [snd] in Hf.
  - destruct (model_validate_json E (snd (route query)) raw); [ | exact Hf].
    rewrite validation_failed_requests. exact Hf.
  - rewrite validation_failed_requests. exact Hf.
Qed.

(** C2. Whatever fails in the guardrail path (the call raising, a
    response without usable content, the fence stripping, the validation
    against [BudgetAnalysis]), [handle_query] prints the failure and goes
    on exactly as the main request does from there: its outcome is the
    outcome of intent routing and the main request, and the second call of
    the service is issued. *)
Theorem guardrail_failure_is_pass (E : Env) (query : string) (w : World) (e : exn) :
  guardrail_failure E query w e ->
  let w1 := snd (print ["Budget check failed:"; str_exn E e]
                   (record_request (V5.guardrail_request E query) w)) in
  V5.handle_query E query w = V5.main_request E query w1
  /\ exists main_prompt,
       requests (snd (V5.handle_query E query w))
       = requests w ++ [V5.guardrail_request E query; V5.main_request_of E main_prompt].
Proof.
  intros H w1.
  assert (Hrun : V5.handle_query E query w = V5.main_request E query w1).
  { unfold V5.handle_query, bind.
    rewrite (guardrail_stage_failure E query w e H). reflexivity. }
  split; [exact Hrun | ]. rewrite Hrun.
  destruct (main_request_calls E query w1) as [p Hp]. exists p.
  rewrite Hp. subst w1. cbn [requests snd print write_stdout record_request].
  rewrite <- app_assoc. reflexivity.
Qed.

Lemma guardrail_failure_is_pass_witness :
  let E := Scripted.env [Raises (APIError "boom"); Response [Some Scripted.flight]] in
  let query := "I need a flight from NYC to LA" in
  guardrail_failure E query Scripted.world (APIError "boom")
  /\ (exists r w', V5.handle_query E query Scripted.world = (Return (Object KFlight r), w')
                   /\ stdout w' = ["Budget check failed: boom" +:+ String PyStr.newline ""])
  /\ exists main_prompt,
       requests (snd (V5.handle_query E query Scripted.world))
       = [V5.guardrail_request E query; V5.main_request_of E main_prompt].
Proof.
  intros E query.
  assert (H : guardrail_failure E query Scripted.world (APIError "boom")).
  { apply gateway_raises. reflexivity. }
  split; [exact H | ].
  destruct (guardrail_failure_is_pass E query Scripted.world _ H) as [H1 H2].
  split; [ | exact H2].
  rewrite H1. vm_compute. eexists _, _. split; reflexivity.
Defined.

Lemma main_request_raises_raise (E : Env) (query : string) (w : World) (e : exn) :
  main_request_raises E query w e -> fst (V5.main_request E query w) = Raise e.
Proof.
  rewrite main_request_run.
  intros [e0 Hf He | raw e0 Hf Hv He];
    destruct (V5.fetch_output E (fst (route query)) query w) as [[raw'|e'] w1];
    cbn [fst] in Hf; try discriminate.
  - injection Hf as ->. rewrite (validation_failed_other E _ e0 w1 He). reflexivity.
  - injection Hf as ->. rewrite Hv.
    rewrite (validation_failed_other E _ e0 w1 He). reflexivity.
Qed.

Lemma main_request_raise_class (E : Env) (query : string) (w : World) (e : exn) :
  fst (V5.main_request E query w) = Raise e -> is_ValidationError e = false.
Proof.
  rewrite main_request_run. intros H.
  assert (Hh : forall o e0 w1,
             fst (V5.validation_failed E o e0 w1) = Raise e ->
             is_ValidationError e = false).
  { intros o e0 w1 H0. destruct (is_ValidationError e0) eqn:He0.
    - destruct o as [raw|].
      + destruct (validation_failed_bound E raw e0 w1 He0) as (w' & Hw' & _).
        rewrite Hw' in H0. discriminate.
      + rewrite (validation_failed_unbound E e0 w1 He0) in H0.
        injection H0 as <-. reflexivity.
    - rewrite (validation_failed_other E o e0 w1 He0) in H0.
      injection H0 as <-. exact He0. }
  destruct (V5.fetch_output E (fst (route query)) query w) as [[raw|e0] w1].
  - destruct (model_validate_json E (snd (route query)) raw) as [e1|r];
      [exact (Hh _ _ _ H) | discriminate].
  - exact (Hh _ _ _ H).
Qed.

Lemma v4_raise_iff (E : Env) (query : string) (w : World) (e : exn) :
  fst (V4.handle_query E query w) = Raise e <-> v4_raises E query w e.
Proof.
  unfold V4.handle_query. destruct (route query) as [task_type output_model] eqn:Hr.
  unfold bind, completions_create, try_except. split.
  - intros H.
    destruct (create E (requests w) _) as [e0|choices] eqn:Hc.
    + injection H as ->. eapply v4_gateway_raises; [reflexivity | ].
      rewrite Hr. exact Hc.
    + destruct choices as [|[content|] rest]; cbn in H.
      * injection H as <-. eapply v4_no_content; [reflexivity | | ].
        -- rewrite Hr. exact Hc.
        -- left. auto.
      * destruct (model_validate_json E output_model (PyStr.strip content))
          as [e1|r] eqn:Hv; cbn in H; [ | discriminate].
        destruct (is_ValidationError e1) eqn:He1; cbn in H; [discriminate | ].
        injection H as ->.
        eapply v4_validator_raises; [reflexivity | | | exact He1].
        -- rewrite Hr. exact Hc.
        -- rewrite Hr. exact Hv.
      * injection H as <-. eapply v4_no_content; [reflexivity | | ].
        -- rewrite Hr. exact Hc.
        -- right. eauto.
  - intros [e0 p -> Hc | e0 p choices -> Hc Hch | e0 p content rest -> Hc Hv He];
      rewrite Hr in *; cbn [fst snd] in *; rewrite Hc.
    + reflexivity.
    + destruct Hch as [[-> ->] | [[rest ->] ->]]; reflexivity.
    + cbn. rewrite Hv. cbn. rewrite He. reflexivity.
Qed.

(** C6, as the code has it. An exception that leaves [handle_query] of
    v5 is never a [ValidationError]; it was raised by the main request,
    after the guardrail stage fell through: no failure of the guardrail
    path leaves the function.  And every exception other than a
    [ValidationError] that is raised while the main completion is fetched
    and stripped, or by the validator, does leave it: a gateway error, an
    empty or missing completion, the [IndexError] of the fence stripping.
    In v4 likewise only a [ValidationError] of the validator is caught;
    the call of the service is outside the [try]. *)
Theorem escaping_exceptions (E : Env) (query : string) (w : World) (e : exn) :
  (fst (V5.handle_query E query w) = Raise e ->
   is_ValidationError e = false
   /\ exists w1, V5.guardrail_stage E query w = (Return None, w1)
                 /\ fst (V5.main_request E query w1) = Raise e)
  /\ ((exists w1, V5.guardrail_stage E query w = (Return None, w1)
                  /\ main_request_raises E query w1 e) ->
      fst (V5.handle_query E query w) = Raise e)
  /\ (fst (V4.handle_query E query w) = Raise e <-> v4_raises E query w e).
Proof.
  split; [ | split; [ | apply v4_raise_iff]].
  - unfold V5.handle_query, bind.
    destruct (guardrail_stage_returns E query w) as (o & w1 & Hg). rewrite Hg.
    destruct o as [r|]; [discriminate | ]. intros H.
    split; [exact (main_request_raise_class E query w1 e H) | ].
    exists w1. split; [reflexivity | exact H].
  - intros (w1 & Hg & H). unfold V5.handle_query, bind. rewrite Hg.
    apply main_request_raises_raise. exact H.
Qed.

Lemma escaping_exceptions_witness :
  let E := Scripted.env [Response [Some Scripted.realistic];
                         Raises (APIError "Connection error.");
                         Raises (APIError "Connection error.")] in
  let query := "I need a flight from NYC to LA" in
  fst (V5.handle_query E query Scripted.world) = Raise (APIError "Connection error.")
  /\ fst (V4.handle_query E query (snd (V5.guardrail_stage E query Scripted.world)))
     = Raise (APIError "Connection error.").
Proof.
  intros E query.
  destruct (escaping_exceptions E query Scripted.world (APIError "Connection error."))
    as (_ & H & _).
  destruct (escaping_exceptions E query (snd (V5.guardrail_stage E query Scripted.world))
              (APIError "Connection error."))
    as (_ & _ & H4).
  split.
  - apply H. exists (snd (V5.guardrail_stage E query Scripted.world)).
    split; [vm_compute; reflexivity | ].
    apply fetch_raises; vm_compute; reflexivity.
  - apply H4. eapply v4_gateway_raises; [reflexivity | vm_compute; reflexivity].
Defined.

(** C6 as stated fails: the guardrail passes, the main call of the
    service raises, and the exception leaves [handle_query]. *)
Lemma main_gateway_error_escapes :
  let E := Scripted.env [Response [Some Scripted.realistic];
                         Raises (APIError "Connection error.")] in
  fst (V5.handle_query E "I need a flight from NYC to LA" Scripted.world)
  = Raise (APIError "Connection error.")
  /\ ~ (forall E query w, exists r, fst (V5.handle_query E query w) = Return r).
Proof.
  intros E.
  assert (H : fst (V5.handle_query E "I need a flight from NYC to LA" Scripted.world)
              = Raise (APIError "Connection error.")) by (vm_compute; reflexivity).
  split; [exact H | ].
  intros Hall.
  destruct (Hall E "I need a flight from NYC to LA" Scripted.world) as [r Hr].
  rewrite H in Hr. discriminate.
Qed.

Lemma error_dict_lookup (E : Env) (e : exn) :
  V5.error_dict E e !! "type" = Some (PStr (text_of_string "error"))
  /\ V5.error_dict E e !! "error" = Some (PStr (text_of_string (str_exn E e)))
  /\ forall key, key <> "type" -> key <> "error" -> V5.error_dict E e !! key = None.
Proof.
  unfold V5.error_dict. split; [ | split].
  - rewrite lookup_insert_ne by discriminate. apply lookup_insert_eq.
  - apply lookup_insert_eq.
  - intros key H1 H2. rewrite !lookup_insert_ne by congruence. apply lookup_empty.
Qed.

(** C7, as the code has it. When the validator rejects the output of the
    main request with a [ValidationError], [handle_query] returns the
    dictionary with the two keys "type" (the text "error") and "error"
    (the text of the exception).  The raw text is printed, last of all; no
    other key, and so no "raw", is in the dictionary. *)
Theorem validation_error_result (E : Env) (query : string) (w w1 w2 : World)
    (output_raw : string) (e : exn) :
  V5.guardrail_stage E query w = (Return None, w1) ->
  V5.fetch_output E (fst (route query)) query w1 = (Return output_raw, w2) ->
  model_validate_json E (snd (route query)) output_raw = inl e ->
  is_ValidationError e = true ->
  exists w3,
    V5.handle_query E query w = (Return (Dict (V5.error_dict E e)), w3)
    /\ V5.error_dict E e !! "type" = Some (PStr (text_of_string "error"))
    /\ V5.error_dict E e !! "error" = Some (PStr (text_of_string (str_exn E e)))
    /\ (forall key, key <> "type" -> key <> "error" -> V5.error_dict E e !! key = None)
    /\ last (stdout w3)
       = Some (PyStr.join " " ["
Raw Output:
"; output_raw] +:+ String PyStr.newline "").
Proof.
  intros Hg Hf Hv He.
  destruct (validation_failed_bound E output_raw e w2 He) as (w3 & Hw3 & _ & Hout).
  exists w3. split.
  - unfold V5.handle_query, bind. rewrite Hg, main_request_run, Hf, Hv. exact Hw3.
  - destruct (error_dict_lookup E e) as (H1 & H2 & H3). auto.
Qed.

Lemma validation_error_result_witness :
  let E := Scripted.env [Response [Some Scripted.realistic];
                         Response [Some Scripted.flight_incomplete]] in
  let query := "I need a flight from NYC to LA" in
  exists e w3,
    model_validate_json E KFlight Scripted.flight_incomplete = inl e
    /\ V5.handle_query E query Scripted.world = (Return (Dict (V5.error_dict E e)), w3)
    /\ V5.error_dict E e !! "raw" = None.
Proof.
  intros E query.
  pose (e := ValidationError "FlightRecommendation"
               [(["departure_time"], "missing"); (["arrival_time"], "missing");
                (["price"], "missing"); (["direct_flight"], "missing");
                (["recommendation_reason"], "missing")]).
  destruct (validation_error_result E query Scripted.world
              (snd (V5.guardrail_stage E query Scripted.world))
              (snd (V5.fetch_output E "flight" query
                      (snd (V5.guardrail_stage E query Scripted.world))))
              Scripted.flight_incomplete e)
    as (w3 & H1 & _ & _ & H4 & _);
    [vm_compute; reflexivity | vm_compute; reflexivity | vm_compute; reflexivity
    | reflexivity | ].
  exists e, w3. split; [vm_compute; reflexivity | ].
  split; [exact H1 | apply H4; discriminate].
Defined.

(** C7 as stated fails: the validator rejects the output of the main
    request, and the dictionary returned has no "raw". *)
Lemma error_result_has_no_raw :
  exists d w',
    V5.handle_query
      (Scripted.env [Response [Some Scripted.realistic];
                     Response [Some Scripted.flight_incomplete]])
      "I need a flight from NYC to LA" Scripted.world
    = (Return (Dict d), w')
    /\ d !! "type" = Some (PStr (text_of_string "error"))
    /\ d !! "raw" = None.
Proof.
  eexists _, _. split; [vm_compute; reflexivity | ].
  split; vm_compute; reflexivity.
Qed.

(** ** Stripping *)

Lemma app_assoc_string (a b c : string) : (a +:+ b) +:+ c = a +:+ (b +:+ c).
Proof. induction a as [|x a IH]; simpl; [ | rewrite IH]; reflexivity. Qed.

Lemma lstrip_split (p : ascii -> bool) (s : string) :
  exists w, s = w +:+ PyStr.lstrip p s /\ every p w = true.
Proof.
  induction s as [|c s (w & Hw & Hall)]; simpl.
  - exists EmptyString. split; reflexivity.
  - destruct (p c) eqn:Hc.
    + exists (String c w). split; [simpl; congruence | ].
      simpl. rewrite Hc. exact Hall.
    + exists EmptyString. split; reflexivity.
Qed.

Lemma rstrip_split (p : ascii -> bool) (s : string) :
  exists w, s = PyStr.rstrip p s +:+ w /\ every p w = true.
Proof.
  induction s as [|c s (w & Hw & Hall)]; simpl.
  - exists EmptyString. split; reflexivity.
  - destruct (PyStr.rstrip p s) as [|d r] eqn:Hr; simpl in Hw.
    + destruct (p c) eqn:Hc.
      * exists (String c w). split; [simpl; congruence | ].
        simpl. rewrite Hc. exact Hall.
      * exists w. split; [simpl; congruence | exact Hall].
    + exists w. split; [simpl; congruence | exact Hall].
Qed.

Lemma rstrip_every (p : ascii -> bool) (w : string) :
  every p w = true -> PyStr.rstrip p w = "".
Proof.
  induction w as [|c w IH]; simpl; [reflexivity | ].
  intros [Hc Hw]%andb_true_iff. rewrite (IH Hw), Hc. reflexivity.
Qed.

Lemma rstrip_app_every (p : ascii -> bool) (s w : string) :
  every p w = true -> PyStr.rstrip p (s +:+ w) = PyStr.rstrip p s.
Proof.
  intros Hw. induction s as [|c s IH]; simpl.
  - apply rstrip_every. exact Hw.
  - rewrite IH. reflexivity.
Qed.

Lemma rstrip_app_keep (p : ascii -> bool) (a b : string) :
  PyStr.rstrip p b <> "" -> PyStr.rstrip p (a +:+ b) = a +:+ PyStr.rstrip p b.
Proof.
  intros Hb. induction a as [|c a IH]; simpl; [reflexivity | ].
  rewrite IH. destruct (a +:+ PyStr.rstrip p b) as [|d r] eqn:Hab; [ | reflexivity].
  destruct a; simpl in Hab; [contradiction | discriminate].
Qed.

Lemma rstrip_last (p : ascii -> bool) (s : string) (c : ascii) :
  p c = false -> PyStr.rstrip p (s +:+ String c "") = s +:+ String c "".
Proof.
  intros Hc. rewrite rstrip_app_keep; simpl; rewrite Hc; [reflexivity | discriminate].
Qed.

(** What [rstrip] leaves is empty or ends with a character that is kept. *)
Lemma rstrip_ends (p : ascii -> bool) (s : string) :
  PyStr.rstrip p s = ""
  \/ exists a c, PyStr.rstrip p s = a +:+ String c "" /\ p c = false.
Proof.
  induction s as [|c s IH]; simpl; [left; reflexivity | ].
  destruct (PyStr.rstrip p s) as [|d r] eqn:Hr.
  - destruct (p c) eqn:Hc; [left; reflexivity | ].
    right. exists EmptyString, c. split; [reflexivity | exact Hc].
  - right. destruct IH as [IH | (a & x & Ha & Hx)]; [discriminate | ].
    exists (String c a), x. simpl. rewrite Ha. split; [reflexivity | exact Hx].
Qed.

(** What [lstrip] leaves is empty or starts with a character that is kept. *)
Lemma lstrip_starts (p : ascii -> bool) (s : string) :
  PyStr.lstrip p s = ""
  \/ exists c r, PyStr.lstrip p s = String c r /\ p c = false.
Proof.
  induction s as [|c s IH]; simpl; [left; reflexivity | ].
  destruct (p c) eqn:Hc; [exact IH | ].
  right. exists c, s. split; [reflexivity | exact Hc].
Qed.

Lemma rstrip_fixed (p : ascii -> bool) (s : string) :
  PyStr.rstrip p (PyStr.rstrip p s) = PyStr.rstrip p s.
Proof.
  destruct (rstrip_ends p s) as [-> | (a & c & -> & Hc)]; [reflexivity | ].
  apply rstrip_last. exact Hc.
Qed.

(** Stripping on the right keeps the first character of a text that
    starts with a character that is kept. *)
Lemma rstrip_keeps_head (p : ascii -> bool) (c : ascii) (s : string) :
  p c = false -> exists r, PyStr.rstrip p (String c s) = String c r.
Proof.
  intros Hc. simpl. destruct (PyStr.rstrip p s); [rewrite Hc | ]; eauto.
Qed.

Lemma lstrip_rstrip_fixed (p : ascii -> bool) (s : string) :
  PyStr.lstrip p (PyStr.rstrip p (PyStr.lstrip p s)) = PyStr.rstrip p (PyStr.lstrip p s).
Proof.
  destruct (lstrip_starts p s) as [-> | (c & r & -> & Hc)]; [reflexivity | ].
  destruct (rstrip_keeps_head p c r Hc) as [r' ->]. simpl. rewrite Hc. reflexivity.
Qed.

(** [strip_chars] is idempotent. *)
Lemma strip_chars_fixed (p : ascii -> bool) (s : string) :
  PyStr.strip_chars p (PyStr.strip_chars p s) = PyStr.strip_chars p s.
Proof.
  unfold PyStr.strip_chars. rewrite lstrip_rstrip_fixed. apply rstrip_fixed.
Qed.

(** ** The scanner and the whitespace around a document *)

Lemma run_app (st : Json.lexer) (a b : string) :
  Json.run st (a +:+ b) = Json.run (Json.run st a) b.
Proof. revert st. induction a as [|c a IH]; intros st; simpl; [ | rewrite IH]; reflexivity. Qed.

Lemma run_failed (out : list Json.token) (s : string) :
  Json.run (out, Json.Failed) s = (out, Json.Failed).
Proof. induction s as [|c s IH]; simpl; [ | rewrite IH]; reflexivity. Qed.

(** A Python whitespace character is JSON whitespace, or no token can
    start with it; it is no part of a word, and it does not end or
    continue an escape. *)
Lemma space_char (c : ascii) :
  PyStr.isspace c = true ->
  Json.is_word c = false
  /\ Ascii.eqb c Json.dquote = false
  /\ Ascii.eqb c "\" = false
  /\ Ascii.eqb c "u" = false
  /\ Json.escape c = None
  /\ Json.hex_value c = None
  /\ (forall out, Json.start out c = (out, Json.Idle)
                  \/ Json.start out c = (out, Json.Failed)).
Proof.
  destruct c as [[] [] [] [] [] [] [] []]; vm_compute; intros H;
    try discriminate H; repeat split; auto.
Qed.

Lemma finish_step_space (st : Json.lexer) (c : ascii) (toks : list Json.token) :
  PyStr.isspace c = true ->
  Json.finish (Json.step st c) = Some toks -> Json.finish st = Some toks.
Proof.
  intros Hc. destruct (space_char c Hc) as (Hw & Hq & Hb & Hu & He & Hh & Hs).
  destruct st as [out m]. destruct m as [|w|t sm|]; cbn [Json.step].
  - destruct (Hs out) as [-> | ->]; [tauto | discriminate].
  - rewrite Hw. cbn [Json.finish]. destruct (Json.classify (rev w)) as [t|].
    + destruct (Hs (t :: out)) as [-> | ->]; [tauto | discriminate].
    + discriminate.
  - destruct sm; cbn [Json.str_step]; rewrite ?Hq, ?Hb, ?Hu, ?He, ?Hh;
      try discriminate.
    destruct (N.ltb (PyStr.ord c) 32); discriminate.
  - tauto.
Qed.

Lemma finish_run_spaces (w : string) (st : Json.lexer) (toks : list Json.token) :
  every PyStr.isspace w = true ->
  Json.finish (Json.run st w) = Some toks -> Json.finish st = Some toks.
Proof.
  revert st. induction w as [|c w IH]; intros st; simpl; [tauto | ].
  intros [Hc Hw]%andb_true_iff H.
  apply (finish_step_space st c toks Hc). apply IH; assumption.
Qed.

Lemma run_leading_spaces (w : string) (out : list Json.token) :
  every PyStr.isspace w = true ->
  Json.run (out, Json.Idle) w = (out, Json.Idle)
  \/ Json.run (out, Json.Idle) w = (out, Json.Failed).
Proof.
  induction w as [|c w IH]; simpl; [auto | ].
  intros [Hc Hw]%andb_true_iff.
  destruct (space_char c Hc) as (_ & _ & _ & _ & _ & _ & Hs).
  destruct (Hs out) as [-> | ->]; [auto | ].
  right. apply run_failed.
Qed.

Lemma lex_lstrip (j : string) (toks : list Json.token) :
  Json.lex j = Some toks -> Json.lex (PyStr.lstrip PyStr.isspace j) = Some toks.
Proof.
  unfold Json.lex.
  destruct (lstrip_split PyStr.isspace j) as (w & Hj & Hw).
  rewrite Hj at 1. rewrite run_app.
  destruct (run_leading_spaces w [] Hw) as [-> | ->]; [tauto | ].
  rewrite run_failed. discriminate.
Qed.

Lemma lex_rstrip (j : string) (toks : list Json.token) :
  Json.lex j = Some toks -> Json.lex (PyStr.rstrip PyStr.isspace j) = Some toks.
Proof.
  unfold Json.lex.
  destruct (rstrip_split PyStr.isspace j) as (w & Hj & Hw).
  rewrite Hj at 1. rewrite run_app. apply finish_run_spaces. exact Hw.
Qed.

(** The tokens of a document do not depend on the whitespace around it. *)
Lemma lex_strip (j : string) (toks : list Json.token) :
  Json.lex j = Some toks -> Json.lex (PyStr.strip j) = Some toks.
Proof.
  intros H. unfold PyStr.strip, PyStr.strip_chars.
  apply lex_rstrip, lex_lstrip, H.
Qed.

(** No document ends with a backtick. *)
Lemma finish_step_backtick (st : Json.lexer) :
  Json.finish (Json.step st "`") = None.
Proof.
  destruct st as [out m]. destruct m as [|w|t sm|]; cbn [Json.step].
  - reflexivity.
  - change (Json.is_word "`") with false. cbv iota.
    destruct (Json.classify (rev w)); reflexivity.
  - destruct sm; reflexivity.
  - reflexivity.
Qed.

Lemma lex_backtick_end (a : string) : Json.lex (a +:+ "`") = None.
Proof. unfold Json.lex. rewrite run_app. apply finish_step_backtick. Qed.

Lemma string_last (s : string) :
  s = "" \/ exists a c, s = a +:+ String c "".
Proof.
  induction s as [|c s [-> | (a & x & ->)]]; [left; reflexivity | right | right].
  - exists EmptyString, c. reflexivity.
  - exists (String c a), x. reflexivity.
Qed.

Lemma rstrip_backticks_document (j : string) (toks : list Json.token) :
  Json.lex j = Some toks -> PyStr.rstrip PyStr.is_backtick j = j.
Proof.
  intros H. destruct (string_last j) as [-> | (a & c & ->)]; [reflexivity | ].
  apply rstrip_last. destruct (PyStr.is_backtick c) eqn:Hc; [ | reflexivity].
  apply Ascii.eqb_eq in Hc. subst c. rewrite lex_backtick_end in H. discriminate.
Qed.

(** A document with a token has a character that is no whitespace. *)
Lemma rstrip_space_document (j : string) (toks : list Json.token) :
  Json.lex j = Some toks -> toks <> [] -> PyStr.rstrip PyStr.isspace j <> "".
Proof.
  intros H Hne Hj. apply lex_rstrip in H. rewrite Hj in H.
  apply Hne. injection H as <-. reflexivity.
Qed.

(** ** A fenced document *)

Lemma fenced_closing (j : string) :
  fenced j = ("```json" +:+ String PyStr.newline j) +:+ "```".
Proof. unfold fenced. simpl. reflexivity. Qed.

Lemma strip_fenced (j : string) : PyStr.strip (fenced j) = fenced j.
Proof.
  unfold PyStr.strip, PyStr.strip_chars.
  replace (PyStr.lstrip PyStr.isspace (fenced j)) with (fenced j) by reflexivity.
  rewrite fenced_closing. apply rstrip_app_keep. discriminate.
Qed.

Lemma strip_fence_fenced (j : string) (toks : list Json.token) :
  Json.lex j = Some toks -> toks <> [] ->
  V5.strip_fence (Some (fenced j)) = inr (PyStr.rstrip PyStr.isspace j).
Proof.
  intros Hlex Hne. unfold V5.strip_fence. rewrite strip_fenced.
  pose proof (rstrip_backticks_document j toks Hlex) as Hbt.
  assert (Hj : j <> "").
  { intros ->. apply Hne. injection Hlex as <-. reflexivity. }
  assert (Hb : PyStr.strip_backticks (fenced j) = "json" +:+ String PyStr.newline j).
  { unfold PyStr.strip_backticks, PyStr.strip_chars.
    replace (PyStr.lstrip PyStr.is_backtick (fenced j))
      with (("json" +:+ String PyStr.newline j) +:+ "```") by reflexivity.
    rewrite rstrip_app_every by reflexivity.
    change ("json" +:+ String PyStr.newline j)
      with (("json" +:+ String PyStr.newline "") +:+ j).
    rewrite rstrip_app_keep by (rewrite Hbt; exact Hj).
    rewrite Hbt. reflexivity. }
  rewrite Hb.
  assert (Hs : PyStr.strip ("json" +:+ String PyStr.newline j)
               = "json" +:+ String PyStr.newline (PyStr.rstrip PyStr.isspace j)).
  { unfold PyStr.strip, PyStr.strip_chars.
    replace (PyStr.lstrip PyStr.isspace ("json" +:+ String PyStr.newline j))
      with (("json" +:+ String PyStr.newline "") +:+ j) by reflexivity.
    rewrite rstrip_app_keep by exact (rstrip_space_document j toks Hlex Hne).
    reflexivity. }
  rewrite Hs. reflexivity.
Qed.

Lemma match_close_inside (c : ascii) (j : string) :
  Re.match_close (String c (j +:+ "```")) = None.
Proof.
  unfold Re.match_close.
  destruct j as [|d [|e [|x [|y j]]]]; simpl; rewrite ?andb_false_r; reflexivity.
Qed.

Lemma sub_from_closing (j : string) : Re.sub_from (j +:+ "```") = j.
Proof.
  induction j as [|c j IH]; [reflexivity | ].
  change (String c j +:+ "```") with (String c (j +:+ "```")).
  cbn [Re.sub_from]. rewrite match_close_inside, IH. reflexivity.
Qed.

Lemma sub_fenced (j : string) : Re.sub (fenced j) = j.
Proof.
  unfold Re.sub.
  replace (Re.match_open (fenced j)) with (Some (j +:+ "```")) by reflexivity.
  apply sub_from_closing.
Qed.

Lemma cleaned_fenced (j : string) : V2.cleaned (fenced j) = PyStr.strip j.
Proof. unfold V2.cleaned. rewrite !strip_fenced, sub_fenced. reflexivity. Qed.

(** ** Validation looks at the tokens only *)

Lemma model_validate_json_lex (k : SchemaKind) (s s' : string) :
  Json.lex s = Json.lex s' ->
  Pydantic.model_validate_json k s = Pydantic.model_validate_json k s'.
Proof.
  intros H. unfold Pydantic.model_validate_json, Json.parse. rewrite H. reflexivity.
Qed.

Lemma validated_has_tokens (k : SchemaKind) (j : string) (r : instance k) :
  Pydantic.model_validate_json k j = inr r ->
  exists toks, Json.lex j = Some toks /\ toks <> [].
Proof.
  unfold Pydantic.model_validate_json, Json.parse.
  destruct (Json.lex j) as [toks|]; [ | discriminate].
  intros H. exists toks. split; [reflexivity | ].
  intros ->. discriminate.
Qed.

(** C4. For every model class and every document [j] that validates
    against it, the text obtained from [j] wrapped in a json fence by the
    fence stripping of v5, and by the cleaning of v2, validates too, and
    gives the same instance as [j] itself. *)
Theorem fenced_document_validates (kind : SchemaKind) (j : string) (r : instance kind) :
  Pydantic.model_validate_json kind j = inr r ->
  (exists s, V5.strip_fence (Some (fenced j)) = inr s
             /\ Pydantic.model_validate_json kind s = inr r)
  /\ Pydantic.model_validate_json kind (V2.cleaned (fenced j)) = inr r.
Proof.
  intros H. destruct (validated_has_tokens kind j r H) as (toks & Hlex & Hne).
  split.
  - exists (PyStr.rstrip PyStr.isspace j). split.
    + exact (strip_fence_fenced j toks Hlex Hne).
    + rewrite <- H. apply model_validate_json_lex.
      rewrite Hlex. apply lex_rstrip. exact Hlex.
  - rewrite cleaned_fenced, <- H. apply model_validate_json_lex.
    rewrite Hlex. apply lex_strip. exact Hlex.
Qed.

Lemma fenced_document_validates_witness :
  let j := Scripted.doc " {'is_realistic': false, 'reasoning': 'too low', 'suggested_budget': 1500}
" in
  let b := {| Budget.is_realistic := false;
              Budget.reasoning := text_of_string "too low";
              Budget.suggested_budget := Some (Finite 1500) |} in
  Pydantic.model_validate_json KBudget j = inr b
  /\ (exists s, V5.strip_fence (Some (fenced j)) = inr s
                /\ Pydantic.model_validate_json KBudget s = inr b)
  /\ Pydantic.model_validate_json KBudget (V2.cleaned (fenced j)) = inr b.
Proof.
  intros j b.
  assert (H : Pydantic.model_validate_json KBudget j = inr b) by (vm_compute; reflexivity).
  split; [exact H | ].
  exact (fenced_document_validates KBudget j b H).
Defined.

(** ** Inputs the sanitizers leave alone *)

Lemma snoc_inj (a b : string) (c d : ascii) :
  a +:+ String c "" = b +:+ String d "" -> a = b /\ c = d.
Proof.
  revert b. induction a as [|x a IH]; intros [|y b] H; simpl in H.
  - injection H as ->. auto.
  - injection H as -> H. destruct b; discriminate.
  - injection H as -> H. destruct a; discriminate.
  - injection H as -> H. destruct (IH b H) as [-> ->]. auto.
Qed.

(** A stripped text does not end with a character of the stripped set. *)
Lemma stripped_last (p : ascii -> bool) (s a : string) (c : ascii) :
  PyStr.strip_chars p s = s -> s = a +:+ String c "" -> p c = false.
Proof.
  intros Hs Ha. unfold PyStr.strip_chars in Hs.
  destruct (rstrip_ends p (PyStr.lstrip p s)) as [H | (b & d & H & Hd)];
    rewrite Hs in H.
  - rewrite H in Ha. destruct a; discriminate.
  - rewrite H in Ha. apply snoc_inj in Ha as [_ <-]. exact Hd.
Qed.

Lemma match_close_some (t r : string) :
  Re.match_close t = Some r -> t = "```" \/ t = "```" +:+ String PyStr.newline "".
Proof.
  unfold Re.match_close.
  destruct (PyStr.startswith "```" t) eqn:Hp; [ | discriminate].
  apply startswith_spec in Hp as [b ->]. simpl.
  destruct b as [|c [|d b]]; simpl; [auto | | discriminate].
  destruct (Ascii.eqb c PyStr.newline) eqn:Hc; [ | discriminate].
  apply Ascii.eqb_eq in Hc as ->. auto.
Qed.

Lemma sub_from_plain (s : string) :
  (forall a, s <> a +:+ "```") ->
  (forall a, s <> a +:+ String PyStr.newline "") ->
  Re.sub_from s = s.
Proof.
  induction s as [|c s IH]; intros H1 H2; [reflexivity | ].
  cbn [Re.sub_from].
  destruct (Re.match_close (String c s)) as [r|] eqn:Hm.
  - apply match_close_some in Hm as [Hm | Hm]; exfalso.
    + apply (H1 EmptyString). exact Hm.
    + apply (H2 "```"). exact Hm.
  - rewrite IH; [reflexivity | | ].
    + intros a ->. apply (H1 (String c a)). reflexivity.
    + intros a ->. apply (H2 (String c a)). reflexivity.
Qed.

Lemma strip_fence_plain (s : string) :
  plain_v5 s -> V5.strip_fence (Some s) = inr s.
Proof.
  intros (H1 & H2 & H3). unfold V5.strip_fence. rewrite H1, H2, H1, H3. reflexivity.
Qed.

Lemma cleaned_plain (s : string) : plain_v2 s -> V2.cleaned s = s.
Proof.
  intros (H1 & H2 & H3). unfold V2.cleaned. rewrite !H1.
  unfold Re.sub, Re.match_open. rewrite H2.
  rewrite sub_from_plain; [exact H1 | exact H3 | ].
  intros a Ha. pose proof (stripped_last PyStr.isspace s a PyStr.newline H1 Ha).
  discriminate.
Qed.

(** ** A document passes the sanitizers *)

Lemma classify_j (w : list ascii) : Json.classify ("j"%char :: w) = None.
Proof. reflexivity. Qed.

(** A word that starts with the letter j is no token. *)
Lemma word_j (s : string) (out : list Json.token) (w w' : list ascii) :
  rev w = "j"%char :: w' -> Json.finish (Json.run (out, Json.Word w) s) = None.
Proof.
  revert w w'. induction s as [|c s IH]; intros w w' Hw.
  - cbn [Json.run Json.finish]. rewrite Hw, classify_j. reflexivity.
  - cbn [Json.run Json.step]. destruct (Json.is_word c).
    + apply (IH (c :: w) (w' ++ [c])). simpl. rewrite Hw. reflexivity.
    + rewrite Hw, classify_j, run_failed. reflexivity.
Qed.

Lemma lex_first_char (c : ascii) (s : string) (toks : list Json.token) :
  Json.lex (String c s) = Some toks -> c <> "`"%char /\ c <> "j"%char.
Proof.
  unfold Json.lex. intros H. split; intros ->.
  - cbn [Json.run Json.step] in H. change (Json.start [] "`") with ([] : list Json.token, Json.Failed) in H.
    rewrite run_failed in H. discriminate.
  - cbn [Json.run Json.step] in H. change (Json.start [] "j") with ([] : list Json.token, Json.Word ["j"%char]) in H.
    rewrite (word_j s [] ["j"%char] []) in H; [discriminate | reflexivity].
Qed.

Lemma lower_char_backtick (c : ascii) :
  Ascii.eqb (PyStr.lower_char "`") (PyStr.lower_char c) = Ascii.eqb "`" c.
Proof. destruct c as [[] [] [] [] [] [] [] []]; reflexivity. Qed.

Lemma stripped_document_plain (j : string) (toks : list Json.token) :
  Json.lex j = Some toks -> toks <> [] ->
  plain_v5 (PyStr.strip j) /\ plain_v2 (PyStr.strip j).
Proof.
  intros Hlex Hne. apply lex_strip in Hlex.
  pose proof (strip_chars_fixed PyStr.isspace j) as Hfix.
  fold (PyStr.strip j) in Hfix. fold (PyStr.strip (PyStr.strip j)) in Hfix.
  destruct (PyStr.strip j) as [|c x] eqn:Hx.
  { exfalso. apply Hne. injection Hlex as <-. reflexivity. }
  destruct (lex_first_char c x toks Hlex) as [Hbt Hj].
  apply Ascii.eqb_neq in Hbt, Hj.
  assert (Hend : forall a, String c x <> a +:+ "```").
  { intros a Ha. rewrite Ha in Hlex.
    change (a +:+ "```") with (a +:+ ("``" +:+ "`")) in Hlex.
    rewrite <- app_assoc_string, lex_backtick_end in Hlex. discriminate. }
  split; [split; [exact Hfix | split] | split; [exact Hfix | split]].
  - unfold PyStr.strip_backticks, PyStr.strip_chars.
    cbn [PyStr.lstrip]. change (PyStr.is_backtick c) with (Ascii.eqb c "`").
    rewrite Hbt.
    exact (rstrip_backticks_document _ toks Hlex).
  - cbn [PyStr.startswith]. rewrite Ascii.eqb_sym, Hj. reflexivity.
  - cbn [Re.startswith_ignorecase]. rewrite lower_char_backtick, Ascii.eqb_sym, Hbt.
    reflexivity.
  - exact Hend.
Qed.

Lemma parsed_has_tokens (j : string) (v : Json.value) :
  Json.parse j = Some v -> exists toks, Json.lex j = Some toks /\ toks <> [].
Proof.
  unfold Json.parse. destruct (Json.lex j) as [toks|]; [ | discriminate].
  intros H. exists toks. split; [reflexivity | ]. intros ->. discriminate.
Qed.




(** ** What validation accepts *)

(** Every missing field is reported, not only the first. *)
Example missing_fields_are_listed :
  Pydantic.model_validate_json KFlight Scripted.flight_incomplete
  = inl (ValidationError "FlightRecommendation"
           [(["departure_time"], "missing"); (["arrival_time"], "missing");
            (["price"], "missing"); (["direct_flight"], "missing");
            (["recommendation_reason"], "missing")]).
Proof. vm_compute. reflexivity. Qed.

Example budget_analysis_validates :
  Pydantic.model_validate_json KBudget
    (Scripted.doc "{'is_realistic': false, 'reasoning': 'too low', 'suggested_budget': 1500}")
  = inr {| Budget.is_realistic := false;
           Budget.reasoning := text_of_string "too low";
           Budget.suggested_budget := Some (Finite 1500) |}.
Proof. vm_compute. reflexivity. Qed.

(** Members that are no field are ignored; a text that is no JSON, or no
    object, is rejected. *)
Example extra_members_are_ignored :
  Pydantic.model_validate_json KBudget
    (Scripted.doc "{'is_realistic': true, 'reasoning': 'fine', 'extra': [1, {'a': null}]}")
  = inr {| Budget.is_realistic := true;
           Budget.reasoning := text_of_string "fine";
           Budget.suggested_budget := None |}.
Proof. vm_compute. reflexivity. Qed.

Example not_json_is_rejected :
  Pydantic.model_validate_json KPlan "Sure! Here is your plan."
  = inl (ValidationError "TravelPlan" [([], "json_invalid")])
  /\ Pydantic.model_validate_json KPlan "[1, 2]"
     = inl (ValidationError "TravelPlan" [([], "model_type")]).
Proof. split; vm_compute; reflexivity. Qed.




(** * Further properties of the scripts *)

(** ** Routing, again *)

Lemma lower_app (a b : string) :
  PyStr.lower (a +:+ b) = PyStr.lower a +:+ PyStr.lower b.
Proof. induction a as [|c a IH]; simpl; [ | rewrite IH]; reflexivity. Qed.

Lemma lower_char_fixed (c : ascii) :
  PyStr.lower_char (PyStr.lower_char c) = PyStr.lower_char c.
Proof. destruct c as [[] [] [] [] [] [] [] []]; reflexivity. Qed.

Lemma lower_fixed (s : string) : PyStr.lower (PyStr.lower s) = PyStr.lower s.
Proof.
  induction s as [|c s IH]; simpl; [ | rewrite IH, lower_char_fixed]; reflexivity.
Qed.

Lemma occurs_app (p s a b : string) : occurs p s -> occurs p (a +:+ s +:+ b).
Proof.
  intros (x & y & ->). exists (a +:+ x), (y +:+ b).
  rewrite !app_assoc_string. reflexivity.
Qed.

(** X1. Routing does not look at the case of the letters: a query and
    its lowercased form get the same task type and schema. *)
Theorem route_ignores_case (query : string) :
  route (PyStr.lower query) = route query.
Proof. unfold route. rewrite lower_fixed. reflexivity. Qed.

(** X2. The keyword counts wherever it stands, also inside a longer
    word or a longer query: when "flight" occurs in the lowercased query,
    every query that contains it is routed to the flight schema, whatever
    else it mentions. *)
Theorem route_flight_anywhere (before query after : string) :
  occurs "flight" (PyStr.lower query) ->
  route (before +:+ query +:+ after) = ("flight", KFlight).
Proof.
  intros H. unfold route.
  assert (Hc : PyStr.contains "flight" (PyStr.lower (before +:+ query +:+ after)) = true).
  { apply contains_spec. rewrite !lower_app. apply occurs_app. exact H. }
  rewrite Hc. reflexivity.
Qed.

Lemma route_flight_anywhere_witness :
  occurs "flight" (PyStr.lower "inFlights")
  /\ route ("Hotel with " +:+ "inFlights" +:+ " shuttle") = ("flight", KFlight).
Proof.
  assert (H : occurs "flight" (PyStr.lower "inFlights")).
  { exists "in", "s". reflexivity. }
  split; [exact H | ].
  exact (route_flight_anywhere "Hotel with " "inFlights" " shuttle" H).
Defined.

(** ** The fence stripping of v5, case by case *)

(** [cut] finds the first separator, or there is none. *)
Lemma cut_spec (sep : ascii) (s : string) :
  match PyStr.cut sep s with
  | Some (a, b) =>
      s = a +:+ String sep b /\ forall x y, a <> x +:+ String sep y
  | None => forall a b, s <> a +:+ String sep b
  end.
Proof.
  induction s as [|c s IH]; simpl.
  - intros [|x a] b; discriminate.
  - destruct (Ascii.eqb c sep) eqn:Hc.
    + apply Ascii.eqb_eq in Hc as ->. split; [reflexivity | ].
      intros [|x a] y; discriminate.
    + apply Ascii.eqb_neq in Hc. destruct (PyStr.cut sep s) as [[a b]|].
      * destruct IH as [-> Ha]. split; [reflexivity | ].
        intros [|x' x] y Heq; simpl in Heq.
        -- injection Heq as -> _. contradiction.
        -- injection Heq as _ Heq. exact (Ha x y Heq).
      * intros [|x a] b Heq; simpl in Heq.
        -- injection Heq as -> _. contradiction.
        -- injection Heq as _ Heq. exact (IH a b Heq).
Qed.

(** The first line of [s], when [s] has a newline, is determined. *)
Lemma first_line_unique (l l' r r' : string) :
  one_line l -> one_line l' ->
  l +:+ String PyStr.newline r = l' +:+ String PyStr.newline r' ->
  l = l' /\ r = r'.
Proof.
  revert l'. induction l as [|c l IH]; intros [|c' l'] Hl Hl' H; simpl in H.
  - injection H as ->. auto.
  - injection H as <- _. exfalso. apply (Hl' EmptyString l'). reflexivity.
  - injection H as -> _. exfalso. apply (Hl EmptyString l). reflexivity.
  - injection H as -> H. destruct (IH l') as [-> ->]; [ | | exact H | auto].
    + intros a b ->. apply (Hl (String c' a) b). reflexivity.
    + intros a b ->. apply (Hl' (String c' a) b). reflexivity.
Qed.

(** X3. The fence stripping of v5 fails in two cases only: with
    [AttributeError] when the completion has no content, and with
    [IndexError] when the stripped text starts with "json" and has no
    newline, as for a completion that is just an empty fence tagged
    json. *)
Theorem strip_fence_failure (content : option string) (e : exn) :
  V5.strip_fence content = inl e
  <-> (content = None /\ e = AttributeError)
      \/ (exists c, content = Some c /\ e = IndexError
                    /\ PyStr.startswith "json" (stripped c) = true
                    /\ one_line (stripped c)).
Proof.
  unfold V5.strip_fence. destruct content as [c|].
  - fold (stripped c). pose proof (cut_spec PyStr.newline (stripped c)) as Hcut.
    unfold PyStr.split1.
    destruct (PyStr.startswith "json" (stripped c)) eqn:Hj.
    + destruct (PyStr.cut PyStr.newline (stripped c)) as [[a b]|]; cbn.
      * split; [discriminate | ].
        intros [[H _] | (c' & [= <-] & _ & _ & H)]; [discriminate | ].
        destruct Hcut as [Hs _]. exfalso. exact (H a b Hs).
      * split.
        -- intros [= <-]. right. exists c. auto.
        -- intros [[H _] | (c' & _ & -> & _)]; [discriminate | reflexivity].
    + split; [discriminate | ].
      intros [[H _] | (c' & [= <-] & _ & H & _)]; [discriminate | ].
      rewrite Hj in H. discriminate.
  - split.
    + intros [= <-]. left. auto.
    + intros [[_ ->] | (c & H & _)]; [reflexivity | discriminate].
Qed.

Example empty_fence_raises :
  V5.strip_fence (Some "```json```") = inl IndexError
  /\ V5.strip_fence (Some " json ") = inl IndexError.
Proof. split; reflexivity. Qed.

(** X4. When the fence stripping of v5 succeeds, its result is the
    stripped text itself if that does not start with "json"; otherwise it
    is what follows the first line of the stripped text: the whole first
    line is dropped, whatever follows "json" on it, and the rest is not
    stripped again. *)
Theorem strip_fence_success (c r : string) :
  V5.strip_fence (Some c) = inr r
  <-> (PyStr.startswith "json" (stripped c) = false /\ r = stripped c)
      \/ (PyStr.startswith "json" (stripped c) = true
          /\ exists l, stripped c = l +:+ String PyStr.newline r /\ one_line l).
Proof.
  unfold V5.strip_fence. fold (stripped c).
  pose proof (cut_spec PyStr.newline (stripped c)) as Hcut.
  unfold PyStr.split1.
  destruct (PyStr.startswith "json" (stripped c)) eqn:Hj.
  - destruct (PyStr.cut PyStr.newline (stripped c)) as [[a b]|]; cbn.
    + destruct Hcut as [Hs Ha]. split.
      * intros [= <-]. right. split; [reflexivity | ]. exists a. auto.
      * intros [[H _] | (_ & l & Hl & Hone)]; [discriminate | ].
        rewrite Hs in Hl.
        destruct (first_line_unique a l b r Ha Hone Hl) as [_ ->]. reflexivity.
    + split; [discriminate | ].
      intros [[H _] | (_ & l & Hl & _)]; [discriminate | ].
      exfalso. exact (Hcut l r Hl).
  - split.
    + intros [= <-]. left. auto.
    + intros [[_ ->] | [H _]]; [reflexivity | discriminate].
Qed.

Example first_line_is_dropped :
  V5.strip_fence (Some ("jsonified answer:" +:+ String PyStr.newline " {}"))
  = inr " {}".
Proof. reflexivity. Qed.

(** ** The prompt of v5 and its task types *)

(** X5. [build_prompt] of v5 looks the task type up in a dictionary with
    the three keys "flight", "hotel" and "plan": for any other task type
    it raises [KeyError], where [build_prompt] of v4 falls back to the
    prompt of the travel planner. *)
Theorem build_prompt_task_types (E : Env) (task_type query : string)
    (context : UserContext) (w : World) :
  (V5.build_prompt E task_type query context w = (Raise (KeyError task_type), w)
   <-> task_type <> "flight" /\ task_type <> "hotel" /\ task_type <> "plan")
  /\ (task_type <> "flight" -> task_type <> "hotel" ->
      V4.build_prompt E task_type query = V4.build_prompt E "plan" query).
Proof.
  split.
  - unfold V5.build_prompt, bind, getitem_dict.
    rewrite !lookup_insert. rewrite lookup_empty.
    repeat case_decide; subst; split; try discriminate; try tauto;
      try (intros (? & ? & ?); congruence).
    intros _. repeat split; congruence.
  - intros H1 H2. unfold V4.build_prompt.
    apply String.eqb_neq in H1, H2. rewrite H1, H2. reflexivity.
Qed.

(** ** The two fence strategies on other fences *)

Lemma lstrip_app_every (p : ascii -> bool) (w s : string) :
  every p w = true -> PyStr.lstrip p (w +:+ s) = PyStr.lstrip p s.
Proof.
  induction w as [|c w IH]; simpl; [reflexivity | ].
  intros [Hc Hw]%andb_true_iff. rewrite Hc. exact (IH Hw).
Qed.

Lemma lstrip_app_keep (p : ascii -> bool) (s w : string) :
  PyStr.lstrip p s <> "" -> PyStr.lstrip p (s +:+ w) = PyStr.lstrip p s +:+ w.
Proof.
  induction s as [|c s IH]; simpl; [contradiction | ].
  destruct (p c); [exact IH | reflexivity].
Qed.

Lemma lstrip_every (p : ascii -> bool) (w : string) :
  every p w = true -> PyStr.lstrip p w = "".
Proof.
  induction w as [|c w IH]; simpl; [reflexivity | ].
  intros [Hc Hw]%andb_true_iff. rewrite Hc. exact (IH Hw).
Qed.

Lemma lstrip_all (p : ascii -> bool) (s w : string) :
  PyStr.lstrip p s = "" -> every p w = true -> PyStr.lstrip p (s +:+ w) = "".
Proof.
  intros Hs Hw. induction s as [|c s IH]; simpl in *.
  - apply lstrip_every. exact Hw.
  - destruct (p c); [exact (IH Hs) | discriminate].
Qed.

(** Whitespace added around a text does not change what [strip] gives. *)
Lemma strip_chars_padded (p : ascii -> bool) (w s w' : string) :
  every p w = true -> every p w' = true ->
  PyStr.strip_chars p (w +:+ s +:+ w') = PyStr.strip_chars p s.
Proof.
  intros Hw Hw'. unfold PyStr.strip_chars. rewrite (lstrip_app_every p w _ Hw).
  destruct (PyStr.lstrip p s) as [|c r] eqn:Hs.
  - rewrite (lstrip_all p s w' Hs Hw'). reflexivity.
  - rewrite lstrip_app_keep by (rewrite Hs; discriminate).
    rewrite Hs. apply rstrip_app_every. exact Hw'.
Qed.

(** A word that starts with a character no token starts with is no
    token. *)
Lemma word_never (c : ascii) (s : string) (out : list Json.token) (w w' : list ascii) :
  (forall x, Json.classify (c :: x) = None) ->
  rev w = c :: w' -> Json.finish (Json.run (out, Json.Word w) s) = None.
Proof.
  intros Hc. revert w w'. induction s as [|d s IH]; intros w w' Hw.
  - cbn [Json.run Json.finish]. rewrite Hw, Hc. reflexivity.
  - cbn [Json.run Json.step]. destruct (Json.is_word d).
    + apply (IH (d :: w) (w' ++ [d])). simpl. rewrite Hw. reflexivity.
    + rewrite Hw, Hc, run_failed. reflexivity.
Qed.

Lemma lex_backtick_start (s : string) : Json.lex (String "`" s) = None.
Proof.
  destruct (Json.lex (String "`" s)) as [toks|] eqn:H; [ | reflexivity].
  destruct (lex_first_char _ _ _ H) as [Hne _]. contradiction.
Qed.

Lemma lex_capital_start (s : string) : Json.lex (String "J" s) = None.
Proof.
  unfold Json.lex. cbn [Json.run Json.step].
  change (Json.start [] "J") with ([] : list Json.token, Json.Word ["J"%char]).
  apply (word_never "J" s [] ["J"%char] []); reflexivity.
Qed.

Lemma invalid_when_no_tokens (k : SchemaKind) (s : string) :
  Json.lex s = None ->
  Pydantic.model_validate_json k s
  = inl (ValidationError (Pydantic.title k) [([], "json_invalid")]).
Proof.
  intros H. unfold Pydantic.model_validate_json, Json.parse. rewrite H. reflexivity.
Qed.

Lemma fenced_untagged_closing (j : string) :
  fenced_untagged j
  = ("```" +:+ String PyStr.newline (j +:+ String PyStr.newline "")) +:+ "```".
Proof. unfold fenced_untagged. simpl. rewrite app_assoc_string. reflexivity. Qed.

Lemma strip_fenced_untagged (j : string) :
  PyStr.strip (fenced_untagged j) = fenced_untagged j.
Proof.
  unfold PyStr.strip, PyStr.strip_chars.
  replace (PyStr.lstrip PyStr.isspace (fenced_untagged j))
    with (fenced_untagged j) by reflexivity.
  rewrite fenced_untagged_closing. apply rstrip_app_keep. discriminate.
Qed.

Lemma strip_fence_untagged (j : string) :
  stripped (fenced_untagged j) = PyStr.strip j.
Proof.
  unfold stripped. rewrite strip_fenced_untagged.
  assert (Hb : PyStr.strip_backticks (fenced_untagged j)
               = String PyStr.newline "" +:+ j +:+ String PyStr.newline "").
  { unfold PyStr.strip_backticks, PyStr.strip_chars.
    replace (PyStr.lstrip PyStr.is_backtick (fenced_untagged j))
      with (String PyStr.newline (j +:+ String PyStr.newline "```")) by reflexivity.
    replace (String PyStr.newline (j +:+ String PyStr.newline "```"))
      with ((String PyStr.newline j +:+ String PyStr.newline "") +:+ "```")
      by (simpl; rewrite app_assoc_string; reflexivity).
    rewrite rstrip_app_every by reflexivity.
    apply rstrip_last. reflexivity. }
  rewrite Hb. apply (strip_chars_padded PyStr.isspace); reflexivity.
Qed.

(** X6. A fence without the json tag: for every model class and every
    document that validates against it, the fence stripping of v5 gives a
    text that validates to the same instance, while the text the cleaning
    of v2 gives is rejected as invalid JSON, since its pattern for the
    opening fence asks for the tag. *)
Theorem untagged_fence (kind : SchemaKind) (j : string) (r : instance kind) :
  Pydantic.model_validate_json kind j = inr r ->
  (exists s, V5.strip_fence (Some (fenced_untagged j)) = inr s
             /\ Pydantic.model_validate_json kind s = inr r)
  /\ Pydantic.model_validate_json kind (V2.cleaned (fenced_untagged j))
     = inl (ValidationError (Pydantic.title kind) [([], "json_invalid")]).
Proof.
  intros H. destruct (validated_has_tokens kind j r H) as (toks & Hlex & Hne).
  destruct (stripped_document_plain j toks Hlex Hne) as [(_ & _ & Hj) _].
  split.
  - exists (PyStr.strip j). split.
    + unfold V5.strip_fence. fold (stripped (fenced_untagged j)).
      rewrite strip_fence_untagged, Hj. reflexivity.
    + rewrite <- H. apply model_validate_json_lex.
      rewrite Hlex. apply lex_strip. exact Hlex.
  - apply invalid_when_no_tokens.
    unfold V2.cleaned. rewrite !strip_fenced_untagged.
    assert (Hsub : Re.sub (fenced_untagged j)
                   = "```" +:+ String PyStr.newline (j +:+ String PyStr.newline "")).
    { unfold Re.sub.
      replace (Re.match_open (fenced_untagged j)) with (@None string) by reflexivity.
      rewrite fenced_untagged_closing. apply sub_from_closing. }
    rewrite Hsub. unfold PyStr.strip, PyStr.strip_chars.
    replace (PyStr.lstrip PyStr.isspace
               ("```" +:+ String PyStr.newline (j +:+ String PyStr.newline "")))
      with (String "`" ("``" +:+ String PyStr.newline (j +:+ String PyStr.newline "")))
      by reflexivity.
    destruct (rstrip_keeps_head PyStr.isspace "`"
                ("``" +:+ String PyStr.newline (j +:+ String PyStr.newline ""))
                eq_refl) as [r' ->].
    apply lex_backtick_start.
Qed.

Lemma untagged_fence_witness :
  let j := Scripted.doc "{'is_realistic': true, 'reasoning': 'fine'}" in
  let b := {| Budget.is_realistic := true;
              Budget.reasoning := text_of_string "fine";
              Budget.suggested_budget := None |} in
  Pydantic.model_validate_json KBudget j = inr b
  /\ (exists s, V5.strip_fence (Some (fenced_untagged j)) = inr s
                /\ Pydantic.model_validate_json KBudget s = inr b)
  /\ Pydantic.model_validate_json KBudget (V2.cleaned (fenced_untagged j))
     = inl (ValidationError "BudgetAnalysis" [([], "json_invalid")]).
Proof.
  intros j b.
  assert (H : Pydantic.model_validate_json KBudget j = inr b) by (vm_compute; reflexivity).
  split; [exact H | ]. exact (untagged_fence KBudget j b H).
Defined.

Lemma strip_fenced_upper (j : string) :
  PyStr.strip (fenced_upper j) = fenced_upper j.
Proof.
  unfold PyStr.strip, PyStr.strip_chars.
  replace (PyStr.lstrip PyStr.isspace (fenced_upper j))
    with (("```JSON" +:+ String PyStr.newline j) +:+ "```") by reflexivity.
  replace (fenced_upper j)
    with (("```JSON" +:+ String PyStr.newline j) +:+ "```") by reflexivity.
  apply rstrip_app_keep. discriminate.
Qed.

(** X7. A fence whose tag is written in capitals: the cleaning of v2,
    whose pattern ignores case, gives a text that validates to the same
    instance as the document; the fence stripping of v5 compares with
    "json" as it is written, keeps the tag line, and its result is
    rejected as invalid JSON. *)
Theorem capital_tag_fence (kind : SchemaKind) (j : string) (r : instance kind) :
  Pydantic.model_validate_json kind j = inr r ->
  Pydantic.model_validate_json kind (V2.cleaned (fenced_upper j)) = inr r
  /\ exists s, V5.strip_fence (Some (fenced_upper j)) = inr s
               /\ Pydantic.model_validate_json kind s
                  = inl (ValidationError (Pydantic.title kind) [([], "json_invalid")]).
Proof.
  intros H. destruct (validated_has_tokens kind j r H) as (toks & Hlex & Hne).
  split.
  - assert (Hc : V2.cleaned (fenced_upper j) = PyStr.strip j).
    { unfold V2.cleaned. rewrite !strip_fenced_upper. unfold Re.sub.
      replace (Re.match_open (fenced_upper j)) with (Some (j +:+ "```")) by reflexivity.
      rewrite sub_from_closing. reflexivity. }
    rewrite Hc, <- H. apply model_validate_json_lex.
    rewrite Hlex. apply lex_strip. exact Hlex.
  - pose proof (rstrip_backticks_document j toks Hlex) as Hbt.
    assert (Hj : j <> "").
    { intros ->. apply Hne. injection Hlex as <-. reflexivity. }
    assert (Hs : stripped (fenced_upper j)
                 = "JSON" +:+ String PyStr.newline (PyStr.rstrip PyStr.isspace j)).
    { unfold stripped. rewrite strip_fenced_upper.
      assert (Hb : PyStr.strip_backticks (fenced_upper j)
                   = "JSON" +:+ String PyStr.newline j).
      { unfold PyStr.strip_backticks, PyStr.strip_chars.
        replace (PyStr.lstrip PyStr.is_backtick (fenced_upper j))
          with (("JSON" +:+ String PyStr.newline j) +:+ "```") by reflexivity.
        rewrite rstrip_app_every by reflexivity.
        change ("JSON" +:+ String PyStr.newline j)
          with (("JSON" +:+ String PyStr.newline "") +:+ j).
        rewrite rstrip_app_keep by (rewrite Hbt; exact Hj).
        rewrite Hbt. reflexivity. }
      rewrite Hb. unfold PyStr.strip, PyStr.strip_chars.
      replace (PyStr.lstrip PyStr.isspace ("JSON" +:+ String PyStr.newline j))
        with (("JSON" +:+ String PyStr.newline "") +:+ j) by reflexivity.
      rewrite rstrip_app_keep by exact (rstrip_space_document j toks Hlex Hne).
      reflexivity. }
    exists ("JSON" +:+ String PyStr.newline (PyStr.rstrip PyStr.isspace j)). split.
    + unfold V5.strip_fence. fold (stripped (fenced_upper j)). rewrite Hs. reflexivity.
    + apply invalid_when_no_tokens. apply lex_capital_start.
Qed.

Lemma capital_tag_fence_witness :
  let j := Scripted.flight in
  exists r, Pydantic.model_validate_json KFlight j = inr r
            /\ Pydantic.model_validate_json KFlight (V2.cleaned (fenced_upper j)) = inr r
            /\ exists s, V5.strip_fence (Some (fenced_upper j)) = inr s
                         /\ Pydantic.model_validate_json KFlight s
                            = inl (ValidationError "FlightRecommendation"
                                     [([], "json_invalid")]).
Proof.
  intros j.
  destruct (Pydantic.model_validate_json KFlight j) as [e|r] eqn:H;
    [vm_compute in H; discriminate H | ].
  exists r. split; [reflexivity | ]. exact (capital_tag_fence KFlight j r H).
Defined.

(** ** More on [handle_query] of v5 and v4 *)

(** The first [try] statement ends in one of two ways. *)
Lemma guardrail_stage_cases (E : Env) (query : string) (w : World) :
  (exists b, V5.guardrail_stage E query w
             = (Return (Some (Dict (V5.guardrail_dict b))),
                record_request (V5.guardrail_request E query) w)
             /\ Budget.is_realistic b = false)
  \/ (exists w1, V5.guardrail_stage E query w = (Return None, w1)
                 /\ requests w1 = requests w ++ [V5.guardrail_request E query]
                 /\ user_context w1 = user_context w).
Proof.
  unfold V5.guardrail_stage, V5.guardrail_check, V5.guardrail_failed,
    try_except, bind, completions_create.
  destruct (create E (requests w) (V5.guardrail_request E query)) as [e|choices];
    [right; eexists; split; [reflexivity | split; reflexivity] | ].
  destruct choices as [|content rest]; cbn [getitem lookup list_lookup ret raise];
    [right; eexists; split; [reflexivity | split; reflexivity] | ].
  destruct (V5.strip_fence content) as [e|js]; cbn [of_sum ret raise];
    [right; eexists; split; [reflexivity | split; reflexivity] | ].
  destruct (model_validate_json E KBudget js) as [e|b]; cbn [of_sum ret raise];
    [right; eexists; split; [reflexivity | split; reflexivity] | ].
  destruct (Budget.is_realistic b) eqn:Hb; cbn [negb].
  - right. eexists. split; [reflexivity | split; reflexivity].
  - left. exists b. split; [reflexivity | exact Hb].
Qed.

(** X8. When the completion of the guardrail call validates as a
    [BudgetAnalysis] whose [is_realistic] is true, [handle_query] goes on
    with the main request from the world in which only the guardrail call
    was recorded: nothing is printed for the guardrail, and the analysis
    (its reasoning, its suggested budget) is not used any further. *)
Theorem guardrail_pass_goes_on (E : Env) (query : string) (w : World)
    (content : option string) (rest : list (option string))
    (guardrail_json : string) (budget_info : Budget.BudgetAnalysis) :
  create E (requests w) (V5.guardrail_request E query) = Response (content :: rest) ->
  V5.strip_fence content = inr guardrail_json ->
  model_validate_json E KBudget guardrail_json = inr budget_info ->
  Budget.is_realistic budget_info = true ->
  V5.handle_query E query w
  = V5.main_request E query (record_request (V5.guardrail_request E query) w).
Proof.
  intros Hcreate Hstrip Hvalid Hreal.
  unfold V5.handle_query, V5.guardrail_stage, V5.guardrail_check,
    try_except, bind, completions_create.
  rewrite Hcreate. cbn [getitem lookup list_lookup ret].
  rewrite Hstrip. cbn [of_sum ret]. rewrite Hvalid. cbn [of_sum ret].
  rewrite Hreal. reflexivity.
Qed.

Lemma guardrail_pass_goes_on_witness :
  let E := Scripted.env [Response [Some Scripted.realistic];
                         Response [Some Scripted.flight]] in
  let query := "I need a flight from NYC to LA" in
  V5.handle_query E query Scripted.world
  = V5.main_request E query
      (record_request (V5.guardrail_request E query) Scripted.world)
  /\ stdout (snd (V5.handle_query E query Scripted.world)) = [].
Proof.
  intros E query.
  assert (H : V5.handle_query E query Scripted.world
              = V5.main_request E query
                  (record_request (V5.guardrail_request E query) Scripted.world)).
  { apply (guardrail_pass_goes_on E query Scripted.world
             (Some Scripted.realistic) [] Scripted.realistic
             {| Budget.is_realistic := true;
                Budget.reasoning := text_of_string "fine";
                Budget.suggested_budget := None |});
      vm_compute; reflexivity. }
  split; [exact H | vm_compute; reflexivity].
Defined.



(** ** The logs only grow *)

Lemma appends_ret {A} (a : A) : only_appends (ret a).
Proof. intros w. exists [], []. rewrite !app_nil_r. auto. Qed.

Lemma appends_raise {A} (e : exn) : only_appends (@raise A e).
Proof. intros w. exists [], []. rewrite !app_nil_r. auto. Qed.

Lemma appends_bind {A C} (m : M A) (f : A -> M C) :
  only_appends m -> (forall a, only_appends (f a)) -> only_appends (bind m f).
Proof.
  intros Hm Hf w. unfold bind. destruct (Hm w) as (rs & ps & H1 & H2).
  destruct (m w) as [[a|e] w1] eqn:Hmw; cbn [snd] in *.
  - destruct (Hf a w1) as (rs' & ps' & H3 & H4).
    exists (rs ++ rs'), (ps ++ ps'). rewrite H3, H4, H1, H2, !app_assoc. auto.
  - eauto.
Qed.

Lemma appends_try_except {A} (body : M A) (handler : exn -> M A) :
  only_appends body -> (forall e, only_appends (handler e)) ->
  only_appends (try_except body handler).
Proof.
  intros Hb Hh w. unfold try_except. destruct (Hb w) as (rs & ps & H1 & H2).
  destruct (body w) as [[a|e] w1] eqn:Hbw; cbn [snd] in *.
  - eauto.
  - destruct (Hh e w1) as (rs' & ps' & H3 & H4).
    exists (rs ++ rs'), (ps ++ ps'). rewrite H3, H4, H1, H2, !app_assoc. auto.
Qed.

Lemma appends_try_bind_except {A C} (first : M A) (rest : A -> M C)
    (handler : option A -> exn -> M C) :
  only_appends first -> (forall a, only_appends (rest a)) ->
  (forall o e, only_appends (handler o e)) ->
  only_appends (try_bind_except first rest handler).
Proof.
  intros Hf Hr Hh w. unfold try_bind_except.
  destruct (Hf w) as (rs & ps & H1 & H2).
  destruct (first w) as [[a|e] w1] eqn:Hfw; cbn [snd] in *.
  - destruct (Hr a w1) as (rs' & ps' & H3 & H4).
    destruct (rest a w1) as [[c|e] w2] eqn:Hrw; cbn [snd] in *.
    + exists (rs ++ rs'), (ps ++ ps'). rewrite H3, H4, H1, H2, !app_assoc. auto.
    + destruct (Hh (Some a) e w2) as (rs'' & ps'' & H5 & H6).
      exists (rs ++ rs' ++ rs''), (ps ++ ps' ++ ps'').
      rewrite H5, H6, H3, H4, H1, H2, !app_assoc. auto.
  - destruct (Hh None e w1) as (rs' & ps' & H3 & H4).
    exists (rs ++ rs'), (ps ++ ps'). rewrite H3, H4, H1, H2, !app_assoc. auto.
Qed.

Lemma appends_of_sum {A} (r : exn + A) : only_appends (of_sum r).
Proof. destruct r; [apply appends_raise | apply appends_ret]. Qed.

Lemma appends_getitem {A} (l : list A) (i : nat) : only_appends (getitem l i).
Proof. unfold getitem. destruct (l !! i); [apply appends_ret | apply appends_raise]. Qed.

Lemma appends_getitem_dict {A} (d : gmap string A) (key : string) :
  only_appends (getitem_dict d key).
Proof.
  unfold getitem_dict. destruct (d !! key); [apply appends_ret | apply appends_raise].
Qed.

Lemma appends_content_strip (content : option string) :
  only_appends (content_strip content).
Proof. destruct content; [apply appends_ret | apply appends_raise]. Qed.

Lemma appends_get_context : only_appends get_context.
Proof. intros w. exists [], []. rewrite !app_nil_r. auto. Qed.

Lemma appends_print (args : list string) : only_appends (print args).
Proof. intros w. eexists [], [_]. cbn. rewrite app_nil_r. auto. Qed.

Lemma appends_completions_create (E : Env) (rq : Request) :
  only_appends (completions_create E rq).
Proof.
  intros w. unfold completions_create. exists [rq], [].
  destruct (create E (requests w) rq); cbn; rewrite app_nil_r; auto.
Qed.

Lemma appends_for_each {A} (l : list A) (body : A -> M unit) :
  (forall x, only_appends (body x)) -> only_appends (for_each l body).
Proof.
  intros Hb. induction l as [|x l IH]; simpl.
  - apply appends_ret.
  - apply appends_bind; [apply Hb | intros _; exact IH].
Qed.

#[local] Hint Resolve appends_ret appends_raise appends_of_sum appends_getitem
  appends_getitem_dict appends_content_strip appends_get_context appends_print
  appends_completions_create : frame.

Ltac appends :=
  repeat first
    [ apply appends_bind; [ | intros ? ]
    | apply appends_try_except; [ | intros ? ]
    | apply appends_try_bind_except; [ | intros ? | intros ? ? ]
    | apply appends_for_each; intros ?
    | solve [ auto with frame ]
    | match goal with
      | |- only_appends (if ?b then _ else _) => destruct b
      | |- only_appends (match ?o with Some _ => _ | None => _ end) => destruct o
      | |- only_appends (let '(_, _) := ?p in _) => destruct p
      end ].

Lemma appends_print_activities (B : Builtins) (i : nat) (l : list text) :
  only_appends (V2Main.print_activities B i l).
Proof.
  revert i. induction l as [|a l IH]; intros i; simpl.
  - apply appends_ret.
  - apply appends_bind; [apply appends_print | intros _; apply IH].
Qed.


(** ** v4 beside v5 *)

Lemma v4_one_call_none (E : Env) (query : string) (w : World) :
  (exists content rest e,
     create E (requests w)
       {| req_model := model E;
          req_messages := user_message (V4.build_prompt E (fst (route query)) query);
          req_temperature := 7 # 10 |}
     = Response (Some content :: rest)
     /\ model_validate_json E (snd (route query)) (PyStr.strip content) = inl e
     /\ is_ValidationError e = true) ->
  fst (V4.handle_query E query w) = Return None.
Proof.
  intros (content & rest & e & Hc & Hv & He).
  unfold V4.handle_query. destruct (route query) as [task_type output_model].
  cbn [fst snd] in *. unfold bind, completions_create, try_except.
  rewrite Hc. cbn. rewrite Hv. cbn. rewrite He. reflexivity.
Qed.

(** X12. [handle_query] of v4 calls the service exactly once, however it
    ends, and it returns [None] exactly when the service gave a completion
    with content and the validator rejected the stripped content with a
    [ValidationError]. *)
Theorem v4_one_call (E : Env) (query : string) (w : World) :
  let rq := {| req_model := model E;
               req_messages := user_message (V4.build_prompt E (fst (route query)) query);
               req_temperature := 7 # 10 |} in
  requests (snd (V4.handle_query E query w)) = requests w ++ [rq]
  /\ (fst (V4.handle_query E query w) = Return None
      <-> exists content rest e,
            create E (requests w) rq = Response (Some content :: rest)
            /\ model_validate_json E (snd (route query)) (PyStr.strip content) = inl e
            /\ is_ValidationError e = true).
Proof.
  cbv zeta. unfold V4.handle_query.
  destruct (route query) as [task_type output_model]. cbn [fst snd].
  unfold bind, completions_create, try_except.
  destruct (create E (requests w) _) as [e|choices] eqn:Hc.
  - split; [reflexivity | ]. split; [discriminate | ].
    intros (? & ? & ? & ? & _). discriminate.
  - destruct choices as [|[content|] rest]; cbn.
    + split; [reflexivity | ]. split; [discriminate | ].
      intros (? & ? & ? & ? & _). discriminate.
    + destruct (model_validate_json E output_model (PyStr.strip content))
        as [e1|r] eqn:Hv; cbn.
      * destruct (is_ValidationError e1) eqn:He1; cbn.
        -- split; [reflexivity | ]. split; [ | reflexivity].
           intros _. exists content, rest, e1. auto.
        -- split; [reflexivity | ]. split; [discriminate | ].
           intros (c' & r' & e' & [= <- <-] & Hv' & He'). congruence.
      * split; [reflexivity | ]. split; [discriminate | ].
        intros (c' & r' & e' & [= <- <-] & Hv' & _). congruence.
    + split; [reflexivity | ]. split; [discriminate | ].
      intros (? & ? & ? & ? & _). discriminate.
Qed.

(** X13. v4 hands the completion to the validator with its fence on.
    With pydantic as the validator and a service that answers with a
    document of the routed class in a json fence, [handle_query] of v4
    returns [None], where the main request of v5 returns the instance. *)
Theorem fenced_completion_v4_v5 (E : Env) (query : string) (w : World)
    (j : string) (r : instance (snd (route query))) :
  (forall k s, model_validate_json E k s = Pydantic.model_validate_json k s) ->
  (forall rq, create E (requests w) rq = Response [Some (fenced j)]) ->
  Pydantic.model_validate_json (snd (route query)) j = inr r ->
  fst (V4.handle_query E query w) = Return None
  /\ fst (V5.main_request E query w) = Return (Object (snd (route query)) r).
Proof.
  intros Hval Hcreate Hj. split.
  - apply v4_one_call_none.
    exists (fenced j), [], (ValidationError (Pydantic.title (snd (route query)))
                              [([], "json_invalid")]).
    split; [apply Hcreate | ]. split; [ | reflexivity].
    rewrite Hval, strip_fenced. apply invalid_when_no_tokens.
    apply lex_backtick_start.
  - rewrite main_request_run.
    destruct (build_prompt_routed E query (user_context w) w) as [p Hp].
    destruct (validated_has_tokens _ j r Hj) as (toks & Hlex & Hne).
    assert (Hf : V5.fetch_output E (fst (route query)) query w
                 = (Return (PyStr.rstrip PyStr.isspace j),
                    record_request (V5.main_request_of E p) w)).
    { unfold V5.fetch_output, bind, get_context. rewrite Hp.
      unfold completions_create. rewrite Hcreate.
      cbn [getitem lookup list_lookup ret].
      rewrite (strip_fence_fenced j toks Hlex Hne). reflexivity. }
    rewrite Hf, Hval.
    replace (Pydantic.model_validate_json (snd (route query))
               (PyStr.rstrip PyStr.isspace j)) with (@inr exn _ r); [reflexivity | ].
    rewrite <- Hj. apply model_validate_json_lex.
    rewrite Hlex. symmetry. apply lex_rstrip. exact Hlex.
Qed.

Lemma fenced_completion_v4_v5_witness :
  let E := Steady.env (Response [Some (fenced Scripted.flight)]) in
  let query := "I need a flight from New York to Chicago tomorrow" in
  fst (V4.handle_query E query Scripted.world) = Return None
  /\ exists r, Pydantic.model_validate_json KFlight Scripted.flight = inr r
               /\ fst (V5.main_request E query Scripted.world)
                  = Return (Object KFlight r).
Proof.
  intros E query.
  destruct (Pydantic.model_validate_json (snd (route query)) Scripted.flight)
    as [e|r] eqn:H; [vm_compute in H; discriminate H | ].
  destruct (fenced_completion_v4_v5 E query Scripted.world Scripted.flight r)
    as [H4 H5]; [reflexivity | reflexivity | exact H | ].
  split; [exact H4 | ]. exists r. split; [exact H | exact H5].
Defined.

(** ** v6: how results are shown *)

Lemma plan_dump_lookup (r : Plan.TravelPlan) :
  let d := V6Chat.model_dump KPlan r in
  d !! "destination" = Some (V6Chat.DText (Plan.destination r))
  /\ d !! "duration_days" = Some (V6Chat.DInt (Plan.duration_days r))
  /\ d !! "budget" = Some (V6Chat.DFloat (Plan.budget r))
  /\ d !! "activities" = Some (V6Chat.DList (Plan.activities r))
  /\ d !! "notes" = Some (V6Chat.DText (Plan.notes r)).
Proof. cbv zeta. repeat apply conj; vm_compute; reflexivity. Qed.

Lemma hotel_dump_lookup (r : Hotel.HotelRecommendation) :
  let d := V6Chat.model_dump KHotel r in
  d !! "name" = Some (V6Chat.DText (Hotel.name r))
  /\ d !! "location" = Some (V6Chat.DText (Hotel.location r))
  /\ d !! "price_per_night" = Some (V6Chat.DFloat (Hotel.price_per_night r))
  /\ d !! "amenities" = Some (V6Chat.DList (Hotel.amenities r))
  /\ d !! "recommendation_reason" = Some (V6Chat.DText (Hotel.recommendation_reason r))
  /\ d !! "destination" = None
  /\ d !! "airline" = None.
Proof. cbv zeta. repeat apply conj; vm_compute; reflexivity. Qed.

Lemma flight_dump_lookup (r : Flight.FlightRecommendation) :
  let d := V6Chat.model_dump KFlight r in
  d !! "destination" = None
  /\ d !! "airline" = Some (V6Chat.DText (Flight.airline r)).
Proof. cbv zeta. repeat apply conj; vm_compute; reflexivity. Qed.

Lemma budget_dump_lookup (r : Budget.BudgetAnalysis) :
  let d := V6Chat.model_dump KBudget r in
  d !! "destination" = None /\ d !! "airline" = None /\ d !! "name" = None.
Proof.
  cbv zeta. unfold V6Chat.model_dump.
  repeat apply conj; rewrite !lookup_insert_ne by discriminate; apply lookup_empty.
Qed.

Lemma guardrail_text_is_guardrail :
  bool_decide (text_of_string "guardrail" = V6Chat.lit "guardrail") = true
  /\ bool_decide (text_of_string "error" = V6Chat.lit "guardrail") = false.
Proof. split; vm_compute; reflexivity. Qed.

(** X14. What the page shows for the two dictionaries of v5.  For the
    error dictionary of any exception it is the text None: the failure
    detail kept under "error" is not shown.  For the guardrail dictionary
    it is the warning with the reasoning inserted as it is, and with the
    suggested budget, or None when the analysis has none, after the dollar
    sign. *)
Theorem dictionaries_shown (B : Builtins) (str_dict : gmap string V6Chat.dval -> text) :
  (forall E e,
     V6Chat.format_agent_response B str_dict (Dict (V5.error_dict E e))
     = Some (V6Chat.lit "None"))
  /\ exists before between after : text,
       forall b,
         V6Chat.format_agent_response B str_dict (Dict (V5.guardrail_dict b))
         = Some (before ++ Budget.reasoning b ++ between
                 ++ match Budget.suggested_budget b with
                    | Some x => str_float B x
                    | None => V6Chat.lit "None"
                    end
                 ++ after).
Proof.
  destruct guardrail_text_is_guardrail as [Hg He]. split.
  - intros E e. destruct (error_dict_lookup E e) as (H1 & _ & H3).
    unfold V6Chat.format_agent_response, V6Chat.is_guardrail.
    rewrite H1, He, H3 by discriminate. reflexivity.
  - eexists _, _, _. intros b.
    destruct (guardrail_dict_lookup b) as (H1 & H2 & H3).
    unfold V6Chat.format_agent_response, V6Chat.is_guardrail, V6Chat.guardrail_html.
    rewrite H1, Hg, H2, H3. cbn [V6Chat.str_pyval].
    rewrite app_assoc, app_assoc.
    destruct (Budget.suggested_budget b); reflexivity.
Qed.

Lemma fold_items (l : list text) (html : text) :
  fold_left (fun html x => html ++ V6Chat.list_item x) l html
  = html ++ List.concat (map V6Chat.list_item l).
Proof.
  revert html. induction l as [|x l IH]; intros html;
    cbn [fold_left map List.concat].
  - rewrite app_nil_r. reflexivity.
  - rewrite IH, <- app_assoc. reflexivity.
Qed.

Lemma format_plan (B : Builtins) (str_dict : gmap string V6Chat.dval -> text)
    (r : Plan.TravelPlan) :
  V6Chat.format_agent_response B str_dict (Object KPlan r)
  = V6Chat.plan_html B (V6Chat.model_dump KPlan r).
Proof.
  destruct (plan_dump_lookup r) as (H1 & _).
  unfold V6Chat.format_agent_response, V6Chat.format_dump, V6Chat.has_key.
  rewrite H1. reflexivity.
Qed.

Lemma format_flight (B : Builtins) (str_dict : gmap string V6Chat.dval -> text)
    (r : Flight.FlightRecommendation) :
  V6Chat.format_agent_response B str_dict (Object KFlight r)
  = Some (V6Chat.flight_html B (V6Chat.model_dump KFlight r)).
Proof.
  destruct (flight_dump_lookup r) as (H1 & H2).
  unfold V6Chat.format_agent_response, V6Chat.format_dump, V6Chat.has_key.
  rewrite H1, H2. reflexivity.
Qed.

Lemma format_hotel (B : Builtins) (str_dict : gmap string V6Chat.dval -> text)
    (r : Hotel.HotelRecommendation) :
  V6Chat.format_agent_response B str_dict (Object KHotel r)
  = V6Chat.hotel_html B (V6Chat.model_dump KHotel r).
Proof.
  destruct (hotel_dump_lookup r) as (H1 & _ & _ & H4 & _ & H6 & H7).
  unfold V6Chat.format_agent_response, V6Chat.format_dump, V6Chat.has_key.
  rewrite H6, H7, H1, H4. reflexivity.
Qed.

Lemma format_budget (B : Builtins) (str_dict : gmap string V6Chat.dval -> text)
    (r : Budget.BudgetAnalysis) :
  V6Chat.format_agent_response B str_dict (Object KBudget r)
  = Some (str_dict (V6Chat.model_dump KBudget r)).
Proof.
  destruct (budget_dump_lookup r) as (H1 & H2 & H3).
  unfold V6Chat.format_agent_response, V6Chat.format_dump, V6Chat.has_key.
  rewrite H1, H2, H3. reflexivity.
Qed.

Lemma format_returns (B : Builtins) (str_dict : gmap string V6Chat.dval -> text)
    (response : result) :
  is_Some (V6Chat.format_agent_response B str_dict response).
Proof.
  destruct response as [d | [] r].
  - unfold V6Chat.format_agent_response. destruct (V6Chat.is_guardrail d); eauto.
  - rewrite format_flight. eauto.
  - rewrite format_hotel. destruct (hotel_dump_lookup r) as (_ & _ & _ & H4 & _).
    unfold V6Chat.hotel_html. rewrite H4. cbn. eauto.
  - rewrite format_plan. destruct (plan_dump_lookup r) as (_ & _ & _ & H4 & _).
    unfold V6Chat.plan_html. rewrite H4. cbn. eauto.
  - rewrite format_budget. eauto.
Qed.

(** X15. [format_agent_response] shows an instance with the template of
    its class: the dump of a travel plan has the key "destination", that
    of a flight has "airline" and not "destination", that of a hotel has
    "name" and "amenities" and neither of the two before; a budget
    analysis has none of them and is shown as [str] of its dump.  On
    every result of [handle_query] the function returns: the loops over
    activities and amenities find lists. *)
Theorem instances_shown (B : Builtins) (str_dict : gmap string V6Chat.dval -> text) :
  (forall r, V6Chat.format_agent_response B str_dict (Object KPlan r)
             = V6Chat.plan_html B (V6Chat.model_dump KPlan r))
  /\ (forall r, V6Chat.format_agent_response B str_dict (Object KFlight r)
                = Some (V6Chat.flight_html B (V6Chat.model_dump KFlight r)))
  /\ (forall r, V6Chat.format_agent_response B str_dict (Object KHotel r)
                = V6Chat.hotel_html B (V6Chat.model_dump KHotel r))
  /\ (forall r, V6Chat.format_agent_response B str_dict (Object KBudget r)
                = Some (str_dict (V6Chat.model_dump KBudget r)))
  /\ forall response, is_Some (V6Chat.format_agent_response B str_dict response).
Proof.
  repeat apply conj.
  - apply format_plan.
  - apply format_flight.
  - apply format_hotel.
  - apply format_budget.
  - apply format_returns.
Qed.

(** X16. The activities of a plan and the amenities of a hotel are shown
    in their order, each as it is between the list item tags, and they
    change nothing else of the page: the text before the items and the
    text after them depend on the other fields only. *)
Theorem lists_shown (B : Builtins) (str_dict : gmap string V6Chat.dval -> text) :
  (forall r, exists before after : text, forall l,
       V6Chat.format_agent_response B str_dict (Object KPlan (with_activities r l))
       = Some (before ++ List.concat (map V6Chat.list_item l) ++ after))
  /\ (forall r, exists before after : text, forall l,
        V6Chat.format_agent_response B str_dict (Object KHotel (with_amenities r l))
        = Some (before ++ List.concat (map V6Chat.list_item l) ++ after)).
Proof.
  split; intros r; eexists _, _; intros l.
  - destruct (plan_dump_lookup (with_activities r l)) as (H1 & H2 & H3 & H4 & H5).
    unfold V6Chat.format_agent_response, V6Chat.format_dump, V6Chat.has_key.
    rewrite H1. unfold V6Chat.plan_html. rewrite H1, H2, H3, H4, H5.
    cbn [V6Chat.iterate mbind option_bind with_activities Plan.destination
           Plan.duration_days Plan.budget Plan.activities Plan.notes].
    rewrite fold_items, <- app_assoc. reflexivity.
  - destruct (hotel_dump_lookup (with_amenities r l))
      as (H1 & H2 & H3 & H4 & H5 & H6 & H7).
    unfold V6Chat.format_agent_response, V6Chat.format_dump, V6Chat.has_key.
    rewrite H6, H7, H1, H4. unfold V6Chat.hotel_html. rewrite H1, H2, H3, H4, H5.
    cbn [V6Chat.iterate mbind option_bind with_amenities Hotel.name Hotel.location
           Hotel.price_per_night Hotel.amenities Hotel.recommendation_reason andb].
    rewrite fold_items, <- app_assoc. reflexivity.
Qed.

(** ** v6: one turn of the chat *)

Lemma agent_execution_run (E : Env) (B : Builtins)
    (str_dict : gmap string V6Chat.dval -> text) (type_error_message : string)
    (now : string) (s : V6Chat.Session) (w : World) (query : string) :
  V6Chat.processing_message s = Some query ->
  V6Chat.nonempty query = true ->
  exists response w',
    V6Chat.agent_execution E B str_dict type_error_message now (s, w)
    = (inr tt,
       (V6Chat.append_message
          {| V6Chat.role := "assistant"; V6Chat.content := response;
             V6Chat.timestamp := now |}
          (V6Chat.set_processing None s), w'))
    /\ match V5.handle_query E query
               (snd (print ["🧠 DEBUG - UserContext:"; repr_context B (user_context w)] w))
       with
       | (Raise e, w1) =>
           response = V6Chat.error_content E type_error_message (V6Chat.Pipeline e)
           /\ w' = w1
       | (Return shown, w1) =>
           V6Chat.format_agent_response B str_dict shown = Some response
           /\ w' = snd (print ["🧪 DEBUG - Formatted HTML:"; encode B response] w1)
       end.
Proof.
  intros Hp Hq.
  unfold V6Chat.agent_execution, V6Chat.ui_bind at 1, V6Chat.get_session.
  cbn [fst]. rewrite Hp, Hq.
  unfold V6Chat.ui_bind, V6Chat.modify, V6Chat.ui_try, V6Chat.respond,
    V6Chat.ui_bind, V6Chat.lift, get_context, V6Chat.ui_ret, V6Chat.ui_raise.
  cbn -[V5.handle_query V6Chat.format_agent_response V6Chat.error_content
          PyStr.join String.append].
  set (w0 := write_stdout _ w).
  destruct (V5.handle_query E query w0) as [[shown|e] w1].
  - destruct (format_returns B str_dict shown) as [html Hhtml].
    rewrite Hhtml. eexists _, _. split; [reflexivity | ]. split; reflexivity.
  - eexists _, _. split; [reflexivity | ]. split; reflexivity.
Qed.

(** X17. The page never fails on a pending message.  When a message is
    pending, the script clears it, answers it and adds exactly one
    assistant entry to the history: the formatted result when
    [handle_query] returns, and the cross mark, "Error:" and the text of
    the exception when [handle_query] raises.  So an exception that
    leaves [handle_query] ends up as a chat message. *)
Theorem page_answers_pending_message (E : Env) (B : Builtins)
    (str_dict : gmap string V6Chat.dval -> text) (type_error_message : string)
    (now : string) (s : V6Chat.Session) (w : World) (query : string) :
  V6Chat.processing_message s = Some query ->
  V6Chat.nonempty query = true ->
  exists response w',
    V6Chat.agent_execution E B str_dict type_error_message now (s, w)
    = (inr tt,
       (V6Chat.append_message
          {| V6Chat.role := "assistant"; V6Chat.content := response;
             V6Chat.timestamp := now |}
          (V6Chat.set_processing None s), w'))
    /\ match V5.handle_query E query
               (snd (print ["🧠 DEBUG - UserContext:"; repr_context B (user_context w)] w))
       with
       | (Raise e, w1) =>
           response = [10060%N] ++ V6Chat.lit " Error: " ++ V6Chat.lit (str_exn E e)
           /\ w' = w1
       | (Return shown, w1) =>
           V6Chat.format_agent_response B str_dict shown = Some response
           /\ w' = snd (print ["🧪 DEBUG - Formatted HTML:"; encode B response] w1)
       end.
Proof. exact (agent_execution_run E B str_dict type_error_message now s w query). Qed.

Lemma page_answers_pending_message_witness :
  let E := Steady.env (Raises (APIError "Connection error.")) in
  let s := V6Chat.set_processing (Some "I need a flight") Steady.session in
  exists w',
    V6Chat.agent_execution E Steady.builtins (fun _ => []) "not iterable" "10:01 AM"
      (s, Scripted.world)
    = (inr tt,
       (V6Chat.append_message
          {| V6Chat.role := "assistant";
             V6Chat.content := [10060%N] ++ V6Chat.lit " Error: "
                               ++ V6Chat.lit "Connection error.";
             V6Chat.timestamp := "10:01 AM" |}
          Steady.session, w')).
Proof.
  intros E s.
  destruct (page_answers_pending_message E Steady.builtins (fun _ => [])
              "not iterable" "10:01 AM" s Scripted.world "I need a flight")
    as (response & w' & Hrun & Hm); [reflexivity | reflexivity | ].
  vm_compute in Hm. destruct Hm as [-> _].
  exists w'. exact Hrun.
Defined.

Lemma agent_execution_idle (E : Env) (B : Builtins)
    (str_dict : gmap string V6Chat.dval -> text) (type_error_message : string)
    (now : string) (s : V6Chat.Session) (w : World) :
  V6Chat.processing_message s = None ->
  V6Chat.agent_execution E B str_dict type_error_message now (s, w)
  = (inr tt, (s, w)).
Proof.
  intros Hp. unfold V6Chat.agent_execution, V6Chat.ui_bind, V6Chat.get_session.
  cbn [fst]. rewrite Hp. reflexivity.
Qed.

(** X18. One run of the script from the text field on, when no message
    is pending at its start.  It never fails and leaves no message
    pending.  With an empty text field it changes nothing and calls
    nothing.  With a text it adds exactly two entries to the history, the
    text under the role "user" and then the answer under the role
    "assistant", and it empties the stored input value; the thread
    identifier stays. *)
Theorem chat_turn_history (E : Env) (B : Builtins)
    (str_dict : gmap string V6Chat.dval -> text) (type_error_message : string)
    (now_user now_agent : string) (user_input : string)
    (s : V6Chat.Session) (w : World) :
  V6Chat.processing_message s = None ->
  exists s' w',
    V6Chat.chat_turn E B str_dict type_error_message now_user now_agent user_input (s, w)
    = (inr tt, (s', w'))
    /\ V6Chat.processing_message s' = None
    /\ V6Chat.thread_id s' = V6Chat.thread_id s
    /\ (V6Chat.nonempty user_input = false -> s' = s /\ w' = w)
    /\ (V6Chat.nonempty user_input = true ->
        V6Chat.user_input_value s' = ""
        /\ exists response,
             V6Chat.chat_history s'
             = V6Chat.chat_history s
               ++ [ {| V6Chat.role := "user"; V6Chat.content := V6Chat.lit user_input;
                       V6Chat.timestamp := now_user |};
                    {| V6Chat.role := "assistant"; V6Chat.content := response;
                       V6Chat.timestamp := now_agent |} ]).
Proof.
  intros Hp.
  unfold V6Chat.chat_turn, V6Chat.ui_bind at 1, V6Chat.input_field,
    V6Chat.ui_bind at 1, V6Chat.get_session.
  cbn [fst]. rewrite Hp.
  destruct (V6Chat.nonempty user_input) eqn:Hin.
  - unfold V6Chat.handle_user_message, V6Chat.ui_bind, V6Chat.modify.
    cbn -[V6Chat.agent_execution V6Chat.lit].
    set (s1 := V6Chat.clear_input _).
    destruct (agent_execution_run E B str_dict type_error_message now_agent
                s1 w user_input eq_refl Hin) as (response & w' & -> & _).
    eexists _, _. split; [reflexivity | ].
    split; [reflexivity | ]. split; [reflexivity | ].
    split; [discriminate | ]. intros _. split; [reflexivity | ].
    exists response. subst s1. cbn. rewrite <- app_assoc. reflexivity.
  - unfold V6Chat.ui_ret.
    rewrite (agent_execution_idle E B str_dict type_error_message now_agent s w Hp).
    exists s, w. split; [reflexivity | ]. split; [exact Hp | ].
    split; [reflexivity | ]. split; [auto | discriminate].
Qed.

Lemma chat_turn_history_witness :
  let E := Scripted.env [Response [Some Scripted.unrealistic]] in
  exists s' w' response,
    V6Chat.chat_turn E Steady.builtins (fun _ => []) "not iterable"
      "10:00 AM" "10:01 AM" "I want to go to India for 500 dollars"
      (Steady.session, Scripted.world)
    = (inr tt, (s', w'))
    /\ V6Chat.processing_message s' = None
    /\ V6Chat.chat_history s'
       = [ {| V6Chat.role := "user";
              V6Chat.content := V6Chat.lit "I want to go to India for 500 dollars";
              V6Chat.timestamp := "10:00 AM" |};
           {| V6Chat.role := "assistant"; V6Chat.content := response;
              V6Chat.timestamp := "10:01 AM" |} ].
Proof.
  intros E.
  destruct (chat_turn_history E Steady.builtins (fun _ => []) "not iterable"
              "10:00 AM" "10:01 AM" "I want to go to India for 500 dollars"
              Steady.session Scripted.world eq_refl)
    as (s' & w' & Hrun & Hp & _ & _ & Hh).
  destruct (Hh eq_refl) as (_ & response & Hhist).
  exists s', w', response. split; [exact Hrun | split; [exact Hp | exact Hhist]].
Defined.

(** ** v6: preferences and the next prompt *)

Lemma main_request_prompt (E : Env) (query : string) (w : World) (p : string) :
  V5.build_prompt E (fst (route query)) query (user_context w) w = (Return p, w) ->
  requests (snd (V5.main_request E query w)) = requests w ++ [V5.main_request_of E p].
Proof.
  intros Hp. rewrite main_request_run.
  assert (Hf : requests (snd (V5.fetch_output E (fst (route query)) query w))
               = requests w ++ [V5.main_request_of E p]).
  { unfold V5.fetch_output, bind, get_context. rewrite Hp.
    unfold completions_create.
    destruct (create E (requests w) (V5.main_request_of E p)) as [e|choices];
      [reflexivity | ].
    destruct choices as [|content rest]; [reflexivity | ].
    cbn [getitem lookup list_lookup ret].
    destruct (V5.strip_fence content); reflexivity. }
  destruct (V5.fetch_output E (fst (route query)) query w) as [[raw|e] w1];
    cbn [snd] in Hf.
  - destruct (model_validate_json E (snd (route query)) raw); [ | exact Hf].
    rewrite validation_failed_requests. exact Hf.
  - rewrite validation_failed_requests. exact Hf.
Qed.

(** X19. Preferences saved on the page reach the next main request: the
    prompt of the request [handle_query]'s main request sends after
    "Save Preferences" is the one built from the new airlines, amenities
    and budget level, with the old user identifier and session start.
    The update itself calls nothing and prints nothing. *)
Theorem saved_preferences_reach_prompt (E : Env) (query : string) (w : World)
    (airlines amenities : list string) (level : string) :
  let w1 := snd (V6.save_preferences airlines amenities level w) in
  let context :=
    {| user_id := user_id (user_context w);
       preferred_airlines := airlines;
       hotel_amenities := amenities;
       budget_level := level;
       session_start := session_start (user_context w) |} in
  requests w1 = requests w /\ stdout w1 = stdout w
  /\ exists p,
       V5.build_prompt E (fst (route query)) query context w1 = (Return p, w1)
       /\ requests (snd (V5.main_request E query w1))
          = requests w ++ [V5.main_request_of E p].
Proof.
  cbv zeta. split; [reflexivity | split; [reflexivity | ]].
  set (w1 := snd (V6.save_preferences airlines amenities level w)).
  destruct (build_prompt_routed E query (user_context w1) w1) as [p Hp].
  exists p. split; [exact Hp | ].
  exact (main_request_prompt E query w1 p Hp).
Qed.

(** ** v2: the loop over the queries *)

Lemma print_activities_run (B : Builtins) (i : nat) (l : list text) (w : World) :
  exists w', V2Main.print_activities B i l w = (Return tt, w')
             /\ requests w' = requests w /\ user_context w' = user_context w.
Proof.
  revert i w. induction l as [|a l IH]; intros i w; cbn [V2Main.print_activities].
  - exists w. auto.
  - unfold bind, print.
    match goal with
    | |- context [V2Main.print_activities B (S i) l ?w0] =>
        destruct (IH (S i) w0) as (w' & -> & Hr & Hc)
    end.
    exists w'. auto.
Qed.

Lemma print_plan_run (B : Builtins) (p : Plan.TravelPlan) (w : World) :
  exists w', V2Main.print_plan B p w = (Return tt, w')
             /\ requests w' = requests w /\ user_context w' = user_context w.
Proof.
  unfold V2Main.print_plan, bind, print.
  match goal with
  | |- context [V2Main.print_activities B 1 ?l ?w0] =>
      destruct (print_activities_run B 1 l w0) as (w1 & -> & Hr & Hc)
  end.
  eexists. split; [reflexivity | ]. cbn. auto.
Qed.

(** X20. When one pass of v2's loop raises.  The pass for a query raises
    [e] exactly when the service raises [e], or answers without a
    completion ([IndexError]), or with a first completion that has no
    content ([AttributeError]), or when the validator raises [e] and [e]
    is no [ValidationError].  A [ValidationError] and the printing of a
    plan never end the pass with an exception. *)
Theorem v2_pass_raises (E : Env) (B : Builtins) (query : string) (w : World) (e : exn) :
  fst (V2Main.process E B query w) = Raise e
  <-> match create E (requests w) (V2Main.request_of query) with
      | Raises e' => e = e'
      | Response [] => e = IndexError
      | Response (None :: _) => e = AttributeError
      | Response (Some content :: _) =>
          model_validate_json E KPlan
            (PyStr.strip (Re.sub (PyStr.strip (PyStr.strip content)))) = inl e
          /\ is_ValidationError e = false
      end.
Proof.
  unfold V2Main.process, bind, print, completions_create.
  cbn -[V2Main.request_of Re.sub PyStr.strip PyStr.join String.append
        V2Main.print_plan repeat_char].
  destruct (create E (requests w) (V2Main.request_of query)) as [e'|choices].
  - cbn. split; [intros [= ->] | intros ->]; reflexivity.
  - destruct choices as [|[content|] rest];
      cbn -[V2Main.request_of Re.sub PyStr.strip PyStr.join String.append
            V2Main.print_plan repeat_char].
    + split; [intros [= <-] | intros ->]; reflexivity.
    + unfold try_except, bind, of_sum.
      destruct (model_validate_json E KPlan _) as [e'|p] eqn:Hv.
      * cbn -[V2Main.request_of Re.sub PyStr.strip PyStr.join String.append
              V2Main.print_plan repeat_char V2Main.validation_failed].
        unfold V2Main.validation_failed.
        destruct (is_ValidationError e') eqn:He'.
        -- cbn. split; [discriminate | ].
           intros [[= <-] He]. congruence.
        -- cbn. split.
           ++ intros [= ->]. auto.
           ++ intros [[= ->] _]. reflexivity.
      * cbn -[V2Main.request_of Re.sub PyStr.strip PyStr.join String.append
              V2Main.print_plan repeat_char].
        match goal with
        | |- context [V2Main.print_plan B p ?w0] =>
            destruct (print_plan_run B p w0) as (w1 & -> & _)
        end.
        cbn. split; [discriminate | intros [[=] _]].
    + split; [intros [= <-] | intros ->]; reflexivity.
Qed.

Lemma v2_pass_returns (E : Env) (B : Builtins) (query : string) (w : World)
    (content : string) (rest : list (option string)) :
  create E (requests w) (V2Main.request_of query) = Response (Some content :: rest) ->
  (forall e, model_validate_json E KPlan
               (PyStr.strip (Re.sub (PyStr.strip (PyStr.strip content)))) = inl e ->
             is_ValidationError e = true) ->
  exists w', V2Main.process E B query w = (Return tt, w')
             /\ requests w' = requests w ++ [V2Main.request_of query]
             /\ user_context w' = user_context w.
Proof.
  intros Hc Hv.
  unfold V2Main.process, bind, print, completions_create.
  cbn -[V2Main.request_of Re.sub PyStr.strip PyStr.join String.append
        V2Main.print_plan repeat_char].
  rewrite Hc.
  cbn -[V2Main.request_of Re.sub PyStr.strip PyStr.join String.append
        V2Main.print_plan repeat_char].
  unfold try_except, bind, of_sum.
  destruct (model_validate_json E KPlan _) as [e'|p] eqn:Hm.
  - cbn -[V2Main.request_of Re.sub PyStr.strip PyStr.join String.append
          V2Main.print_plan repeat_char V2Main.validation_failed].
    unfold V2Main.validation_failed. rewrite (Hv e' eq_refl).
    eexists. split; [reflexivity | ]. cbn. auto.
  - cbn -[V2Main.request_of Re.sub PyStr.strip PyStr.join String.append
          V2Main.print_plan repeat_char].
    match goal with
    | |- context [V2Main.print_plan B p ?w0] =>
        destruct (print_plan_run B p w0) as (w1 & -> & Hr & Hu)
    end.
    exists w1. split; [reflexivity | ]. rewrite Hr, Hu. cbn. auto.
Qed.

(** X21. v2's loop goes on after a document that does not validate.  If
    the service answers every request with a first completion that has a
    content, and the validator raises nothing but [ValidationError], the
    loop over any list of queries ends without an exception, has sent
    exactly one request per query, in the order of the queries, and has
    left the user context alone. *)
Theorem v2_loop_sends_every_query (E : Env) (B : Builtins) (qs : list string) (w : World) :
  (forall sent rq, exists content rest, create E sent rq = Response (Some content :: rest)) ->
  (forall s e, model_validate_json E KPlan s = inl e -> is_ValidationError e = true) ->
  exists w',
    for_each qs (V2Main.process E B) w = (Return tt, w')
    /\ requests w' = requests w ++ map V2Main.request_of qs
    /\ user_context w' = user_context w.
Proof.
  intros Hc Hv. revert w. induction qs as [|q qs IH]; intros w.
  - exists w. cbn. rewrite app_nil_r. auto.
  - destruct (Hc (requests w) (V2Main.request_of q)) as (content & rest & Hq).
    destruct (v2_pass_returns E B q w content rest Hq (fun e => Hv _ e))
      as (w1 & Hrun & Hr & Hu).
    destruct (IH w1) as (w' & Hrun' & Hr' & Hu').
    exists w'. cbn [for_each]. unfold bind. rewrite Hrun.
    split; [exact Hrun' | ]. split.
    + rewrite Hr', Hr. cbn [map]. rewrite <- app_assoc. reflexivity.
    + congruence.
Qed.

Lemma pydantic_raises_validation_error (k : SchemaKind) (s : string) (e : exn) :
  Pydantic.model_validate_json k s = inl e -> is_ValidationError e = true.
Proof.
  unfold Pydantic.model_validate_json.
  destruct (Json.parse s) as [v|]; [ | intros [= <-]; reflexivity].
  destruct v; try (intros [= <-]; reflexivity).
  destruct (Pydantic.validate_model k _); [intros [= <-]; reflexivity | discriminate].
Qed.

Lemma v2_loop_sends_every_query_witness :
  let E := Steady.env (Response [Some "Sorry, I cannot help with that."]) in
  exists w',
    V2Main.main E Steady.builtins Scripted.world = (Return tt, w')
    /\ requests w' = requests Scripted.world ++ map V2Main.request_of V2Main.queries
    /\ user_context w' = user_context Scripted.world.
Proof.
  intros E.
  apply (v2_loop_sends_every_query E Steady.builtins V2Main.queries Scripted.world).
  - intros sent rq. eexists _, _. reflexivity.
  - intros s e. apply pydantic_raises_validation_error.
Defined.
